(** * SensorTransmitter.h: build-time resolution of board, radio and pins

    [SensorTransmitter.h] is a configuration header: everything it does
    happens in the C preprocessor.  It is embedded here as a function on the
    preprocessor's state (the macro table and the diagnostics emitted so
    far) that either finishes or stops at an [#error].  Each directive of the
    header is one combinator below, so the definitions can be read next to
    the header line by line. *)

From Stdlib Require Import ZArith String List Bool.
From stdpp Require Import base option list gmap strings.

Open Scope string_scope.

(** ** Preprocessor model *)

(** Tokens of a macro's replacement list or of a [#pragma message]
    argument. *)
Inductive token :=
| TNum (n : Z)          (* integer literal *)
| TId (x : string)      (* identifier *)
| TStr (s : string)     (* string literal *)
| THash                 (* the stringification operator *)
| TLParen
| TRParen.

(** A macro: object-like ([params = None]) or function-like, with its
    replacement list. *)
Record macro := Macro { params : option (list string); repl : list token }.

(** [#define X ts] *)
Definition obj (ts : list token) : macro := Macro None ts.

(** [#define F(x) ts] *)
Definition fn (xs : list string) (ts : list token) : macro := Macro (Some xs) ts.

(** The preprocessor's state: the macro table, and the arguments of the
    [#pragma message] directives met so far, as written (before
    expansion), oldest first. *)
Record state := State {
  macros : gmap string macro;
  messages : list (list token)
}.

(** Processing either runs to the end of the text or stops at [#error]. *)
Inductive outcome :=
| Done (s : state)
| Failed (msg : string).

Definition directive := state -> outcome.

(** A controlling expression of [#if]; the header only uses [defined],
    [!] and [||]. *)
Definition cond := gmap string macro -> bool.

Definition defined (x : string) : cond :=
  fun m => match m !! x with Some _ => true | None => false end.

Definition c_or (a b : cond) : cond := fun m => a m || b m.

Definition c_not (a : cond) : cond := fun m => negb (a m).

(** [#define]: a later definition of a name replaces the earlier one (the
    compiler only warns about it). *)
Definition define (x : string) (b : macro) : directive :=
  fun s => Done (State (<[x := b]> (macros s)) (messages s)).

Definition pragma_message (ts : list token) : directive :=
  fun s => Done (State (macros s) (messages s ++ [ts])).

Definition error (msg : string) : directive := fun _ => Failed msg.

Definition skip : directive := Done.

Definition seq (d1 d2 : directive) : directive :=
  fun s => match d1 s with
           | Done s' => d2 s'
           | Failed msg => Failed msg
           end.

Definition if_else (c : cond) (d1 d2 : directive) : directive :=
  fun s => if c (macros s) then d1 s else d2 s.

Declare Scope cpp_scope.
Delimit Scope cpp_scope with cpp.
Bind Scope cpp_scope with directive.
Notation "d1 ;; d2" := (seq d1 d2)
  (at level 100, d2 at level 200, right associativity) : cpp_scope.
Notation "'IF' c 'THEN' d1 'ELSE' d2" := (if_else c d1 d2)
  (at level 10, d2 at level 200) : cpp_scope.
Notation "a ||| b" := (c_or a b) (at level 50, left associativity).
Open Scope cpp_scope.

(** A build: the macros in force when the header's text starts (from the
    command line and from the board's core). *)
Definition build (defs : list (string * macro)) : state :=
  State (list_to_map defs) [].

(** [-DX] on the command line defines [X] as [1]. *)
Definition D (x : string) : string * macro := (x, obj [TNum 1]).

(** ** The header *)

(** Lines 54-63: library settings, payload source, transmit interval. *)
Definition settings : directive :=
  define "MAX_SENSORS_DEFAULT" (obj [TNum 1]) ;;
  define "WIND_DATA_FLOATINGPOINT" (obj []) ;;
  define "DATA_JSON_INPUT" (obj []) ;;
  define "TX_INTERVAL" (obj [TNum 30]).

(** Lines 65-71: [enum struct Encoders]. *)
Inductive Encoders :=
| ENC_BRESSER_5IN1
| ENC_BRESSER_6IN1
| ENC_BRESSER_7IN1
| ENC_BRESSER_LEAKAGE
| ENC_BRESSER_LIGHTNING.

(** The T3S3 branches (lines 146-149, 155-158, 164-167). *)
Definition receiver_pins : directive :=
  define "PIN_RECEIVER_CS" (obj [TId "LORA_CS"]) ;;
  define "PIN_RECEIVER_IRQ" (obj [TId "LORA_IRQ"]) ;;
  define "PIN_RECEIVER_GPIO" (obj [TId "LORA_BUSY"]) ;;
  define "PIN_RECEIVER_RST" (obj [TId "LORA_RST"]).

(** Lines 196-211: the body of the FireBeetle branch. *)
Definition firebeetle : directive :=
  define "FIREBEETLE_ESP32_COVER_LORA" (obj []) ;;
  IF defined "FIREBEETLE_ESP32_COVER_LORA" THEN
    pragma_message [TStr "FIREBEETLE_ESP32_COVER_LORA defined; assuming this is a FireBeetle ESP32 with FireBeetle Cover LoRa"] ;;
    define "USE_SX1276" (obj []) ;;
    pragma_message [TStr "Required wiring: D2 to RESET, D3 to DIO0, D4 to CS, D5 to DIO1"]
  ELSE IF defined "LORAWAN_NODE" THEN
    pragma_message [TStr "LORAWAN_NODE defined; assuming this is the LoRaWAN_Node board (DFRobot Firebeetle32 + Adafruit RFM95W LoRa Radio)"] ;;
    define "USE_SX1276" (obj [])
  ELSE
    pragma_message [TStr "ARDUINO_DFROBOT_FIREBEETLE_ESP32 defined; select either LORAWAN_NODE or FIREBEETLE_ESP32_COVER_LORA manually!"].

(** Lines 129-213: the board chain. *)
Definition board : directive :=
  IF defined "ARDUINO_TTGO_LoRa32_V1" THEN
    pragma_message [TStr "ARDUINO_TTGO_LoRa32_V1 defined; using on-board transceiver"] ;;
    define "USE_SX1276" (obj [])
  ELSE IF defined "ARDUINO_TTGO_LoRa32_V2" THEN
    pragma_message [TStr "ARDUINO_TTGO_LoRa32_V2 defined; using on-board transceiver"] ;;
    pragma_message [TStr "LoRa DIO1 must be wired to GPIO33 manually!"] ;;
    define "USE_SX1276" (obj [])
  ELSE IF defined "ARDUINO_TTGO_LoRa32_v21new" THEN
    pragma_message [TStr "ARDUINO_TTGO_LoRa32_V21new defined; using on-board transceiver"] ;;
    define "USE_SX1276" (obj [])
  ELSE IF defined "ARDUINO_LILYGO_T3S3_SX1262" THEN
    pragma_message [TStr "ARDUINO_LILYGO_T3S3_SX1262 defined; using on-board transceiver"] ;;
    define "USE_SX1262" (obj []) ;;
    receiver_pins
  ELSE IF defined "ARDUINO_LILYGO_T3S3_SX1276" THEN
    pragma_message [TStr "ARDUINO_LILYGO_T3S3_SX1276 defined; using on-board transceiver"] ;;
    define "USE_SX1276" (obj []) ;;
    receiver_pins
  ELSE IF defined "ARDUINO_LILYGO_T3S3_LR1121" THEN
    pragma_message [TStr "ARDUINO_LILYGO_T3S3_LR1121 defined; using on-board transceiver"] ;;
    define "USE_LR1121" (obj []) ;;
    receiver_pins
  ELSE IF defined "ARDUINO_HELTEC_WIRELESS_STICK" THEN
    pragma_message [TStr "ARDUINO_heltec_wireless_stick defined; using on-board transceiver"] ;;
    define "USE_SX1276" (obj [])
  ELSE IF defined "ARDUINO_HELTEC_WIFI_LORA_32_V2" THEN
    pragma_message [TStr "ARDUINO_heltec_wifi_lora_32_V2 defined; using on-board transceiver"] ;;
    define "USE_SX1276" (obj [])
  ELSE IF defined "ARDUINO_ADAFRUIT_FEATHER_ESP32S2" THEN
    pragma_message [TStr "ARDUINO_ADAFRUIT_FEATHER_ESP32S2 defined; assuming RFM95W FeatherWing will be used"] ;;
    define "USE_SX1276" (obj [])
  ELSE IF defined "ARDUINO_FEATHER_ESP32" THEN
    pragma_message [TStr "ARDUINO_FEATHER_ESP32 defined; assuming RFM95W FeatherWing will be used"] ;;
    define "USE_SX1276" (obj []) ;;
    pragma_message [TStr "Required wiring: A to RST, B to DIO1, D to DIO0, E to CS"]
  ELSE IF defined "ARDUINO_AVR_FEATHER32U4" THEN
    pragma_message [TStr "ARDUINO_AVR_FEATHER32U4 defined; assuming this is the Adafruit Feather 32u4 RFM95 LoRa Radio"] ;;
    define "USE_SX1276" (obj [])
  ELSE IF defined "ARDUINO_ADAFRUIT_FEATHER_RP2040" THEN
    pragma_message [TStr "ARDUINO_ADAFRUIT_FEATHER_RP2040 defined; assuming assuming RFM95W FeatherWing will be used"] ;;
    define "USE_SX1276" (obj []) ;;
    pragma_message [TStr "Required wiring: A to RST, B to DIO1, D to DIO0, E to CS"]
  ELSE IF defined "ARDUINO_DFROBOT_FIREBEETLE_ESP32" THEN
    firebeetle
  ELSE skip.

(** Lines 219-229: the transceiver chip. *)
Definition radio_transceiver : directive :=
  IF defined "USE_CC1101" THEN
    define "TRANSCEIVER_CHIP" (obj [TStr "[CC1101]"])
  ELSE IF defined "USE_SX1276" THEN
    define "TRANSCEIVER_CHIP" (obj [TStr "[SX1276]"])
  ELSE IF defined "USE_SX1262" THEN
    define "TRANSCEIVER_CHIP" (obj [TStr "[SX1262]"])
  ELSE IF defined "USE_LR1121" THEN
    define "TRANSCEIVER_CHIP" (obj [TStr "[LR1121]"])
  ELSE
    error "Either USE_CC1101, USE_SX1276, USE_SX1262 or USE_LR1121 must be defined!".

(** The four [#define]s every branch of the pin chain consists of, in the
    order the header writes them: CS, IRQ, GPIO, RST. *)
Definition transceiver (cs irq gpio rst : token) : directive :=
  define "PIN_TRANSCEIVER_CS" (obj [cs]) ;;
  define "PIN_TRANSCEIVER_IRQ" (obj [irq]) ;;
  define "PIN_TRANSCEIVER_GPIO" (obj [gpio]) ;;
  define "PIN_TRANSCEIVER_RST" (obj [rst]).

(** Lines 236-380: the pin chain. *)
Definition transceiver_pins : directive :=
  IF defined "LORAWAN_NODE" THEN
    transceiver (TNum 14) (TNum 4) (TNum 16) (TNum 12)
  ELSE IF defined "FIREBEETLE_ESP32_COVER_LORA" THEN
    transceiver (TNum 27) (TNum 26) (TNum 9) (TNum 25)
  ELSE IF defined "ARDUINO_TTGO_LoRa32_V1" ||| defined "ARDUINO_TTGO_LoRa32_V2" THEN
    transceiver (TId "LORA_CS") (TId "LORA_IRQ") (TNum 33) (TId "LORA_RST")
  ELSE IF defined "ARDUINO_TTGO_LoRa32_v21new" THEN
    transceiver (TId "LORA_CS") (TId "LORA_IRQ") (TId "LORA_D1") (TId "LORA_RST")
  ELSE IF defined "ARDUINO_heltec_wireless_stick" ||| defined "ARDUINO_heltec_wifi_lora_32_V2" THEN
    transceiver (TId "SS") (TId "DIO0") (TId "DIO1") (TId "RST_LoRa")
  ELSE IF defined "ARDUINO_ADAFRUIT_FEATHER_ESP32S2" THEN
    transceiver (TNum 6) (TNum 5) (TNum 11) (TNum 9)
  ELSE IF defined "ARDUINO_FEATHER_ESP32" THEN
    transceiver (TNum 14) (TNum 32) (TNum 33) (TNum 27)
  ELSE IF defined "ESP32" THEN
    transceiver (TNum 27) (TNum 21) (TNum 33) (TNum 32)
  ELSE IF defined "ESP8266" THEN
    transceiver (TNum 15) (TNum 4) (TNum 5) (TNum 2)
  ELSE IF defined "ARDUINO_AVR_FEATHER32U4" THEN
    transceiver (TNum 8) (TNum 7) (TNum 99) (TNum 4)
  ELSE IF defined "ARDUINO_ADAFRUIT_FEATHER_RP2040" THEN
    transceiver (TNum 7) (TNum 8) (TNum 10) (TNum 11)
  ELSE skip.

(** Lines 382-385: the stringification helpers and the two summary
    messages. *)
Definition report : directive :=
  define "STR_HELPER" (fn ["x"] [THash; TId "x"]) ;;
  define "STR" (fn ["x"] [TId "STR_HELPER"; TLParen; TId "x"; TRParen]) ;;
  pragma_message [TStr "Transmitter chip: "; TId "TRANSCEIVER_CHIP"] ;;
  pragma_message
    [TStr "Pin config: RST->"; TId "STR"; TLParen; TId "PIN_TRANSCEIVER_RST"; TRParen;
     TStr ", CS->"; TId "STR"; TLParen; TId "PIN_TRANSCEIVER_CS"; TRParen;
     TStr ", GD0/G0/IRQ->"; TId "STR"; TLParen; TId "PIN_TRANSCEIVER_IRQ"; TRParen;
     TStr ", GDO2/G1/GPIO->"; TId "STR"; TLParen; TId "PIN_TRANSCEIVER_GPIO"; TRParen].

(** Lines 54-385: the text between [#include <Arduino.h>] and the closing
    [#endif]. *)
Definition header_body : directive :=
  settings ;; board ;; radio_transceiver ;; transceiver_pins ;; report.

Section IncludeGuard.
(** What [#include <Arduino.h>] does is the board core's business. *)
Variable Arduino_h : directive.

(** Lines 49-387: the whole file. *)
Definition SensorTransmitter_h : directive :=
  IF c_not (defined "SENSOR_TRANSMITTER_H") THEN
    define "SENSOR_TRANSMITTER_H" (obj []) ;;
    Arduino_h ;;
    header_body
  ELSE skip.
End IncludeGuard.


(** ** Reading the result *)

(** The four radio families the header knows (lines 219-229). *)
Inductive RadioFamily := CC1101 | SX1276 | SX1262 | LR1121.

Definition use_macro (f : RadioFamily) : string :=
  match f with
  | CC1101 => "USE_CC1101"
  | SX1276 => "USE_SX1276"
  | SX1262 => "USE_SX1262"
  | LR1121 => "USE_LR1121"
  end.

Definition chip_label (f : RadioFamily) : string :=
  match f with
  | CC1101 => "[CC1101]"
  | SX1276 => "[SX1276]"
  | SX1262 => "[SX1262]"
  | LR1121 => "[LR1121]"
  end.

(** The hardware targets the board chain recognises, in the order of its
    branches. *)
Inductive Target :=
| TTGO_LoRa32_V1
| TTGO_LoRa32_V2
| TTGO_LoRa32_v21new
| LILYGO_T3S3_SX1262
| LILYGO_T3S3_SX1276
| LILYGO_T3S3_LR1121
| HELTEC_WIRELESS_STICK
| HELTEC_WIFI_LORA_32_V2
| ADAFRUIT_FEATHER_ESP32S2
| FEATHER_ESP32
| AVR_FEATHER32U4
| ADAFRUIT_FEATHER_RP2040
| DFROBOT_FIREBEETLE_ESP32.

Definition targets : list Target :=
  [TTGO_LoRa32_V1; TTGO_LoRa32_V2; TTGO_LoRa32_v21new; LILYGO_T3S3_SX1262;
   LILYGO_T3S3_SX1276; LILYGO_T3S3_LR1121; HELTEC_WIRELESS_STICK;
   HELTEC_WIFI_LORA_32_V2; ADAFRUIT_FEATHER_ESP32S2; FEATHER_ESP32;
   AVR_FEATHER32U4; ADAFRUIT_FEATHER_RP2040; DFROBOT_FIREBEETLE_ESP32].

(** The macro the board chain tests for a target. *)
Definition target_macro (t : Target) : string :=
  match t with
  | TTGO_LoRa32_V1 => "ARDUINO_TTGO_LoRa32_V1"
  | TTGO_LoRa32_V2 => "ARDUINO_TTGO_LoRa32_V2"
  | TTGO_LoRa32_v21new => "ARDUINO_TTGO_LoRa32_v21new"
  | LILYGO_T3S3_SX1262 => "ARDUINO_LILYGO_T3S3_SX1262"
  | LILYGO_T3S3_SX1276 => "ARDUINO_LILYGO_T3S3_SX1276"
  | LILYGO_T3S3_LR1121 => "ARDUINO_LILYGO_T3S3_LR1121"
  | HELTEC_WIRELESS_STICK => "ARDUINO_HELTEC_WIRELESS_STICK"
  | HELTEC_WIFI_LORA_32_V2 => "ARDUINO_HELTEC_WIFI_LORA_32_V2"
  | ADAFRUIT_FEATHER_ESP32S2 => "ARDUINO_ADAFRUIT_FEATHER_ESP32S2"
  | FEATHER_ESP32 => "ARDUINO_FEATHER_ESP32"
  | AVR_FEATHER32U4 => "ARDUINO_AVR_FEATHER32U4"
  | ADAFRUIT_FEATHER_RP2040 => "ARDUINO_ADAFRUIT_FEATHER_RP2040"
  | DFROBOT_FIREBEETLE_ESP32 => "ARDUINO_DFROBOT_FIREBEETLE_ESP32"
  end.

(** The target of a build: the first branch of the board chain whose macro
    is defined. *)
Definition board_target (m : gmap string macro) : option Target :=
  List.find (fun t => defined (target_macro t) m) targets.

(** The family a target brings with it: the [USE_...] macro its branch of
    the board chain defines. *)
Definition implied_family (t : Target) : RadioFamily :=
  match t with
  | LILYGO_T3S3_SX1262 => SX1262
  | LILYGO_T3S3_LR1121 => LR1121
  | _ => SX1276
  end.

(** The targets for which the pin chain has no branch of its own: the
    T3S3 branches define [PIN_RECEIVER_...] macros, and the Heltec branch of
    the pin chain tests differently spelled macros.  These are ESP32
    boards; the branch of the pin chain that catches them is the generic
    ESP32 one (line 328), which tests [ESP32]. *)
Definition no_own_pin_block (t : Target) : bool :=
  match t with
  | LILYGO_T3S3_SX1262 | LILYGO_T3S3_SX1276 | LILYGO_T3S3_LR1121
  | HELTEC_WIRELESS_STICK | HELTEC_WIFI_LORA_32_V2 => true
  | _ => false
  end.

(** The LilyGo T3S3 targets (lines 142-167). *)
Definition is_t3s3 (t : Target) : bool :=
  match t with
  | LILYGO_T3S3_SX1262 | LILYGO_T3S3_SX1276 | LILYGO_T3S3_LR1121 => true
  | _ => false
  end.

(** The families in the order lines 219-226 test them. *)
Definition families : list RadioFamily := [CC1101; SX1276; SX1262; LR1121].

(** The family the chain of lines 219-229 settles on in a macro table. *)
Definition selected_family (m : gmap string macro) : option RadioFamily :=
  List.find (fun f => defined (use_macro f) m) families.

(** The families the build itself asks for with a [USE_...] macro. *)
Definition requested_families (m : gmap string macro) : list RadioFamily :=
  List.filter (fun f => defined (use_macro f) m) families.

Definition implied_by_target (m : gmap string macro) (f : RadioFamily) : bool :=
  match board_target m, f with
  | None, _ => false
  | Some t, f =>
      match implied_family t, f with
      | CC1101, CC1101 | SX1276, SX1276 | SX1262, SX1262 | LR1121, LR1121 => true
      | _, _ => false
      end
  end.

(** The FireBeetle branch is the one that defines
    [FIREBEETLE_ESP32_COVER_LORA] on its own (line 197). *)
Definition firebeetle_target (m : gmap string macro) : bool :=
  match board_target m with
  | Some DFROBOT_FIREBEETLE_ESP32 => true
  | _ => false
  end.

(** The families in play once the board chain has run: those the build
    asks for and the one its target implies. *)
Definition effective_families (m : gmap string macro) : list RadioFamily :=
  List.filter (fun f => defined (use_macro f) m || implied_by_target m f) families.

Definition no_family_message : string :=
  "Either USE_CC1101, USE_SX1276, USE_SX1262 or USE_LR1121 must be defined!".

(** The four transceiver pin macros. *)
Definition pin_macros : list string :=
  ["PIN_TRANSCEIVER_CS"; "PIN_TRANSCEIVER_IRQ"; "PIN_TRANSCEIVER_GPIO";
   "PIN_TRANSCEIVER_RST"].

Definition pins_are (m : gmap string macro) (cs irq gpio rst : token) : Prop :=
  m !! "PIN_TRANSCEIVER_CS" = Some (obj [cs])
  /\ m !! "PIN_TRANSCEIVER_IRQ" = Some (obj [irq])
  /\ m !! "PIN_TRANSCEIVER_GPIO" = Some (obj [gpio])
  /\ m !! "PIN_TRANSCEIVER_RST" = Some (obj [rst]).

Definition receiver_pins_are (m : gmap string macro) : Prop :=
  m !! "PIN_RECEIVER_CS" = Some (obj [TId "LORA_CS"])
  /\ m !! "PIN_RECEIVER_IRQ" = Some (obj [TId "LORA_IRQ"])
  /\ m !! "PIN_RECEIVER_GPIO" = Some (obj [TId "LORA_BUSY"])
  /\ m !! "PIN_RECEIVER_RST" = Some (obj [TId "LORA_RST"]).

(** How many of the names in [xs] are defined. *)
Definition count_defined (xs : list string) (m : gmap string macro) : nat :=
  length (List.filter (fun x => defined x m) xs).

(** The conditions of the pin chain's branches above the generic ESP32
    one (lines 236-315). *)
Definition dedicated_pins : cond :=
  defined "LORAWAN_NODE" ||| defined "FIREBEETLE_ESP32_COVER_LORA"
  ||| (defined "ARDUINO_TTGO_LoRa32_V1" ||| defined "ARDUINO_TTGO_LoRa32_V2")
  ||| defined "ARDUINO_TTGO_LoRa32_v21new"
  ||| (defined "ARDUINO_heltec_wireless_stick" ||| defined "ARDUINO_heltec_wifi_lora_32_V2")
  ||| defined "ARDUINO_ADAFRUIT_FEATHER_ESP32S2"
  ||| defined "ARDUINO_FEATHER_ESP32".

(** The conditions of the remaining branches (lines 328-367). *)
Definition fallback_pins : cond :=
  defined "ESP32" ||| defined "ESP8266" ||| defined "ARDUINO_AVR_FEATHER32U4"
  ||| defined "ARDUINO_ADAFRUIT_FEATHER_RP2040".

(** The payload-source macros of lines 58-61. *)
Definition data_sources : list string :=
  ["DATA_RAW"; "DATA_GEN"; "DATA_JSON_CONST"; "DATA_JSON_INPUT"].

(** *** The enumeration *)

Definition Encoders_all : list Encoders :=
  [ENC_BRESSER_5IN1; ENC_BRESSER_6IN1; ENC_BRESSER_7IN1; ENC_BRESSER_LEAKAGE;
   ENC_BRESSER_LIGHTNING].

#[global] Instance Encoders_eq_dec : EqDecision Encoders.
Proof. solve_decision. Defined.

Definition enumerator (e : Encoders) : string :=
  match e with
  | ENC_BRESSER_5IN1 => "ENC_BRESSER_5IN1"
  | ENC_BRESSER_6IN1 => "ENC_BRESSER_6IN1"
  | ENC_BRESSER_7IN1 => "ENC_BRESSER_7IN1"
  | ENC_BRESSER_LEAKAGE => "ENC_BRESSER_LEAKAGE"
  | ENC_BRESSER_LIGHTNING => "ENC_BRESSER_LIGHTNING"
  end.

(** The value of an enumerator: none has an initializer, so they count up
    from zero. *)
Definition Encoders_value (e : Encoders) : Z :=
  match e with
  | ENC_BRESSER_5IN1 => 0
  | ENC_BRESSER_6IN1 => 1
  | ENC_BRESSER_7IN1 => 2
  | ENC_BRESSER_LEAKAGE => 3
  | ENC_BRESSER_LIGHTNING => 4
  end.

(** Name lookup of [Encoders::x]: the enumeration is scoped, so this is the
    only way to name one of its values, and a name that is not an enumerator
    is a compile error ([None]). *)
Definition Encoders_lookup (x : string) : option Encoders :=
  List.find (fun e => String.eqb (enumerator e) x) Encoders_all.

(** The encoder kinds as the specification names them. *)
Inductive EncoderKind :=
| Bresser5in1
| Bresser6in1
| Bresser7in1
| BresserLeakage
| BresserLightning.

Definition kind_of (e : Encoders) : EncoderKind :=
  match e with
  | ENC_BRESSER_5IN1 => Bresser5in1
  | ENC_BRESSER_6IN1 => Bresser6in1
  | ENC_BRESSER_7IN1 => Bresser7in1
  | ENC_BRESSER_LEAKAGE => BresserLeakage
  | ENC_BRESSER_LIGHTNING => BresserLightning
  end.

Definition encoder_of (k : EncoderKind) : Encoders :=
  match k with
  | Bresser5in1 => ENC_BRESSER_5IN1
  | Bresser6in1 => ENC_BRESSER_6IN1
  | Bresser7in1 => ENC_BRESSER_7IN1
  | BresserLeakage => ENC_BRESSER_LEAKAGE
  | BresserLightning => ENC_BRESSER_LIGHTNING
  end.

(** *** Stage properties *)

(** [d] leaves the macro [k] as it found it. *)
Definition preserves (k : string) (d : directive) : Prop :=
  forall s s', d s = Done s' -> macros s' !! k = macros s !! k.

(** [d] never undefines a macro. *)
Definition grows (d : directive) : Prop :=
  forall s s' k,
    d s = Done s' -> defined k (macros s) = true -> defined k (macros s') = true.

(** [d] cannot stop the build. *)
Definition total (d : directive) : Prop := forall s, exists s', d s = Done s'.

(** *** Names and diagnostics *)

(** Every name some [#define] of lines 54-383 may define. *)
Definition header_writes : list string :=
  ["MAX_SENSORS_DEFAULT"; "WIND_DATA_FLOATINGPOINT"; "DATA_JSON_INPUT";
   "TX_INTERVAL"; "USE_SX1276"; "USE_SX1262"; "USE_LR1121";
   "PIN_RECEIVER_CS"; "PIN_RECEIVER_IRQ"; "PIN_RECEIVER_GPIO"; "PIN_RECEIVER_RST";
   "FIREBEETLE_ESP32_COVER_LORA"; "TRANSCEIVER_CHIP";
   "PIN_TRANSCEIVER_CS"; "PIN_TRANSCEIVER_IRQ"; "PIN_TRANSCEIVER_GPIO";
   "PIN_TRANSCEIVER_RST"; "STR_HELPER"; "STR"].

(** Every name some [#if] or [#elif] of lines 129-380 tests. *)
Definition header_tests : list string :=
  (map target_macro targets
   ++ ["FIREBEETLE_ESP32_COVER_LORA"; "LORAWAN_NODE";
       "USE_CC1101"; "USE_SX1276"; "USE_SX1262"; "USE_LR1121";
       "ARDUINO_heltec_wireless_stick"; "ARDUINO_heltec_wifi_lora_32_V2";
       "ESP32"; "ESP8266"])%list.

(** Two macro tables in which the same tested names are defined, whatever
    they are defined as. *)
Definition same_defined (m1 m2 : gmap string macro) : Prop :=
  forall k, k ∈ header_tests -> defined k m1 = defined k m2.

(** The targets of the board chain that have a pin block of their own above
    the generic ESP32 branch, with the pins of that block (CS, IRQ, GPIO,
    RST). *)
Definition own_pin_block (t : Target) : option (token * token * token * token) :=
  match t with
  | TTGO_LoRa32_V1 | TTGO_LoRa32_V2 =>
      Some (TId "LORA_CS", TId "LORA_IRQ", TNum 33, TId "LORA_RST")
  | TTGO_LoRa32_v21new =>
      Some (TId "LORA_CS", TId "LORA_IRQ", TId "LORA_D1", TId "LORA_RST")
  | ADAFRUIT_FEATHER_ESP32S2 => Some (TNum 6, TNum 5, TNum 11, TNum 9)
  | FEATHER_ESP32 => Some (TNum 14, TNum 32, TNum 33, TNum 27)
  | DFROBOT_FIREBEETLE_ESP32 => Some (TNum 27, TNum 26, TNum 9, TNum 25)
  | _ => None
  end.

(** The diagnostics of lines 205 and 209. *)
Definition lorawan_node_message : list token :=
  [TStr "LORAWAN_NODE defined; assuming this is the LoRaWAN_Node board (DFRobot Firebeetle32 + Adafruit RFM95W LoRa Radio)"].

Definition select_manually_message : list token :=
  [TStr "ARDUINO_DFROBOT_FIREBEETLE_ESP32 defined; select either LORAWAN_NODE or FIREBEETLE_ESP32_COVER_LORA manually!"].

(** The two diagnostics of lines 384-385. *)
Definition chip_report : list token :=
  [TStr "Transmitter chip: "; TId "TRANSCEIVER_CHIP"].

Definition pin_report : list token :=
  [TStr "Pin config: RST->"; TId "STR"; TLParen; TId "PIN_TRANSCEIVER_RST"; TRParen;
   TStr ", CS->"; TId "STR"; TLParen; TId "PIN_TRANSCEIVER_CS"; TRParen;
   TStr ", GD0/G0/IRQ->"; TId "STR"; TLParen; TId "PIN_TRANSCEIVER_IRQ"; TRParen;
   TStr ", GDO2/G1/GPIO->"; TId "STR"; TLParen; TId "PIN_TRANSCEIVER_GPIO"; TRParen].

(** [d] only adds diagnostics, each of them satisfying [P], after those
    already emitted. *)
Definition appends (P : list token -> Prop) (d : directive) : Prop :=
  forall s s', d s = Done s' ->
    exists l, messages s' = (messages s ++ l)%list /\ Forall P l.

(** ** Concrete builds *)

(** A generic ESP32 board with an SX1276. *)
Example generic_esp32_sx1276 :
  match header_body (build [D "ESP32"; D "USE_SX1276"]) with
  | Done s =>
      pins_are (macros s) (TNum 27) (TNum 21) (TNum 33) (TNum 32)
      /\ macros s !! "TRANSCEIVER_CHIP" = Some (obj [TStr "[SX1276]"])
  | Failed _ => False
  end.
Proof. vm_compute. auto 6. Qed.

(** The same board without a radio family stops at line 228. *)
Example generic_esp32_no_family :
  header_body (build [D "ESP32"]) = Failed no_family_message.
Proof. reflexivity. Qed.

(** A TTGO LoRa32 V1 takes the pins of its core, with the GPIO pin 33. *)
Example ttgo_lora32_v1 :
  match header_body (build [D "ARDUINO_TTGO_LoRa32_V1"; D "ESP32"]) with
  | Done s =>
      pins_are (macros s) (TId "LORA_CS") (TId "LORA_IRQ") (TNum 33) (TId "LORA_RST")
      /\ macros s !! "TRANSCEIVER_CHIP" = Some (obj [TStr "[SX1276]"])
  | Failed _ => False
  end.
Proof. vm_compute. auto 6. Qed.

(** The diagnostics of a FireBeetle build, in the order they are
    emitted. *)
Example firebeetle_messages :
  match header_body (build [D "ARDUINO_DFROBOT_FIREBEETLE_ESP32"; D "ESP32"]) with
  | Done s =>
      map (fun ts => head ts) (messages s)
      = [Some (TStr "FIREBEETLE_ESP32_COVER_LORA defined; assuming this is a FireBeetle ESP32 with FireBeetle Cover LoRa");
         Some (TStr "Required wiring: D2 to RESET, D3 to DIO0, D4 to CS, D5 to DIO1");
         Some (TStr "Transmitter chip: ");
         Some (TStr "Pin config: RST->")]
  | Failed _ => False
  end.
Proof. vm_compute. reflexivity. Qed.

(** The two chains spell the Heltec macros differently: the board chain
    tests [ARDUINO_HELTEC_WIRELESS_STICK], the pin chain
    [ARDUINO_heltec_wireless_stick].  With the upper-case macro the family
    comes from the board chain and the pins from the generic ESP32 branch;
    with the lower-case one the pins are the Heltec ones and the family has
    to come from the build. *)
Example heltec_upper_case :
  match header_body (build [D "ARDUINO_HELTEC_WIRELESS_STICK"; D "ESP32"]) with
  | Done s =>
      pins_are (macros s) (TNum 27) (TNum 21) (TNum 33) (TNum 32)
      /\ macros s !! "TRANSCEIVER_CHIP" = Some (obj [TStr "[SX1276]"])
  | Failed _ => False
  end.
Proof. vm_compute. auto 6. Qed.

Example heltec_lower_case :
  header_body (build [D "ARDUINO_heltec_wireless_stick"; D "ESP32"])
  = Failed no_family_message
  /\ match header_body
            (build [D "ARDUINO_heltec_wireless_stick"; D "ESP32"; D "USE_SX1276"]) with
     | Done s =>
         pins_are (macros s) (TId "SS") (TId "DIO0") (TId "DIO1") (TId "RST_LoRa")
     | Failed _ => False
     end.
Proof. split; [reflexivity|]. vm_compute. auto 6. Qed.

(** ** Macro tables *)

Lemma defined_insert_eq x b (m : gmap string macro) :
  defined x (<[x:=b]> m) = true.
Proof. unfold defined. by rewrite lookup_insert_eq. Qed.

Lemma defined_insert_ne x y b (m : gmap string macro) :
  x ≠ y -> defined y (<[x:=b]> m) = defined y m.
Proof. intros H. unfold defined. by rewrite lookup_insert_ne. Qed.

Lemma defined_insert_mono x y b (m : gmap string macro) :
  defined y m = true -> defined y (<[x:=b]> m) = true.
Proof.
  intros H. destruct (decide (x = y)) as [->|Hne].
  - apply defined_insert_eq.
  - by rewrite defined_insert_ne.
Qed.

Lemma defined_lookup x (m m' : gmap string macro) :
  m' !! x = m !! x -> defined x m' = defined x m.
Proof. unfold defined. by intros ->. Qed.

Lemma defined_Some x b (m : gmap string macro) :
  m !! x = Some b -> defined x m = true.
Proof. unfold defined. by intros ->. Qed.

(** Push [defined] and lookups through the definitions made so far. *)
Ltac defs :=
  repeat first
    [ rewrite defined_insert_eq in *
    | rewrite defined_insert_ne in * by discriminate
    | rewrite lookup_insert_eq in *
    | rewrite lookup_insert_ne in * by discriminate ].

(** ** Directives *)

Section Combinators.
Context (k : string).

Lemma preserves_define x b : x ≠ k -> preserves k (define x b).
Proof. intros H s s' [= <-]. simpl. by rewrite lookup_insert_ne. Qed.

Lemma preserves_message ts : preserves k (pragma_message ts).
Proof. by intros s s' [= <-]. Qed.

Lemma preserves_skip : preserves k skip.
Proof. by intros s s' [= <-]. Qed.

Lemma preserves_error msg : preserves k (error msg).
Proof. by intros s s' ?. Qed.

Lemma preserves_seq d1 d2 :
  preserves k d1 -> preserves k d2 -> preserves k (d1 ;; d2).
Proof.
  intros H1 H2 s s'. unfold seq. destruct (d1 s) as [s1|] eqn:E; [|done].
  intros E2. rewrite (H2 _ _ E2). by apply H1.
Qed.

Lemma preserves_if c d1 d2 :
  preserves k d1 -> preserves k d2 -> preserves k (IF c THEN d1 ELSE d2).
Proof. intros H1 H2 s s'. unfold if_else. destruct (c (macros s)); auto. Qed.
End Combinators.

Lemma grows_define x b : grows (define x b).
Proof. intros s s' k [= <-] H. simpl. by apply defined_insert_mono. Qed.

Lemma grows_message ts : grows (pragma_message ts).
Proof. by intros s s' k [= <-]. Qed.

Lemma grows_skip : grows skip.
Proof. by intros s s' k [= <-]. Qed.

Lemma grows_error msg : grows (error msg).
Proof. by intros s s' k ?. Qed.

Lemma grows_seq d1 d2 : grows d1 -> grows d2 -> grows (d1 ;; d2).
Proof.
  intros H1 H2 s s' k. unfold seq. destruct (d1 s) as [s1|] eqn:E; [|done].
  intros E2 Hk. eapply H2; eauto.
Qed.

Lemma grows_if c d1 d2 : grows d1 -> grows d2 -> grows (IF c THEN d1 ELSE d2).
Proof. intros H1 H2 s s' k. unfold if_else. destruct (c (macros s)); eauto. Qed.

Lemma total_define x b : total (define x b).
Proof. intros s. by eexists. Qed.

Lemma total_message ts : total (pragma_message ts).
Proof. intros s. by eexists. Qed.

Lemma total_skip : total skip.
Proof. intros s. by eexists. Qed.

Lemma total_seq d1 d2 : total d1 -> total d2 -> total (d1 ;; d2).
Proof.
  intros H1 H2 s. unfold seq. destruct (H1 s) as [s1 ->]. apply H2.
Qed.

Lemma total_if c d1 d2 : total d1 -> total d2 -> total (IF c THEN d1 ELSE d2).
Proof. intros H1 H2 s. unfold if_else. destruct (c (macros s)); auto. Qed.

Create HintDb cpp.
#[local] Hint Resolve grows_define grows_message grows_skip grows_error grows_seq
  grows_if total_define total_message total_skip total_seq total_if
  preserves_message preserves_skip preserves_error preserves_seq preserves_if : cpp.
#[local] Hint Extern 1 (preserves _ (define _ _)) =>
  apply preserves_define; discriminate : cpp.

Ltac stages :=
  unfold header_body, board, firebeetle, receiver_pins, radio_transceiver,
    transceiver_pins, transceiver, settings, report.

(** Solve [preserves k d], [grows d] or [total d] along the structure of
    [d]. *)
Ltac structural := stages; auto 60 with cpp.

Lemma board_total : total board.
Proof. structural. Qed.

Lemma transceiver_pins_total : total transceiver_pins.
Proof. structural. Qed.

Lemma header_body_grows : grows header_body.
Proof. structural. Qed.


Ltac run :=
  unfold if_else, seq, define, pragma_message, skip, error, c_or, c_not in *;
  simpl in *.

Lemma board_family s s' f :
  board s = Done s' ->
  defined (use_macro f) (macros s')
  = defined (use_macro f) (macros s) || implied_by_target (macros s) f.
Proof.
  unfold implied_by_target, board_target. stages. run. intros E.
  destruct f; simpl;
    repeat case_match; simplify_eq; simpl in *; defs;
    rewrite ?orb_true_r, ?orb_false_r; try done.
Qed.

Lemma board_cover_lora s s' :
  board s = Done s' ->
  defined "FIREBEETLE_ESP32_COVER_LORA" (macros s')
  = defined "FIREBEETLE_ESP32_COVER_LORA" (macros s) || firebeetle_target (macros s).
Proof.
  unfold firebeetle_target, board_target. stages. run. intros E.
  repeat case_match; simplify_eq; simpl in *; defs;
    rewrite ?orb_true_r, ?orb_false_r; try done.
Qed.

Lemma seq_Done d1 d2 s s' :
  (d1 ;; d2) s = Done s' <-> exists s1, d1 s = Done s1 /\ d2 s1 = Done s'.
Proof.
  unfold seq. split.
  - destruct (d1 s) as [s1|]; [eauto | done].
  - by intros (s1 & -> & ?).
Qed.

Lemma radio_transceiver_selected s :
  radio_transceiver s
  = match selected_family (macros s) with
    | Some f => define "TRANSCEIVER_CHIP" (obj [TStr (chip_label f)]) s
    | None => Failed no_family_message
    end.
Proof.
  unfold selected_family. stages. run. by repeat case_match.
Qed.

Lemma selected_family_head (m : gmap string macro) :
  selected_family m = head (requested_families m).
Proof.
  unfold selected_family, requested_families. simpl. by repeat case_match.
Qed.

Lemma transceiver_pins_are cs irq gpio rst s s' :
  transceiver cs irq gpio rst s = Done s' -> pins_are (macros s') cs irq gpio rst.
Proof. intros [= <-]. unfold pins_are. simpl. defs. done. Qed.

Lemma pins_lorawan_node s :
  defined "LORAWAN_NODE" (macros s) = true ->
  transceiver_pins s = transceiver (TNum 14) (TNum 4) (TNum 16) (TNum 12) s.
Proof. intros H. unfold transceiver_pins, if_else. by rewrite H. Qed.

Lemma pins_generic_esp32 s :
  dedicated_pins (macros s) = false ->
  defined "ESP32" (macros s) = true ->
  transceiver_pins s = transceiver (TNum 27) (TNum 21) (TNum 33) (TNum 32) s.
Proof.
  unfold dedicated_pins, transceiver_pins, if_else, c_or. intros H1 H2.
  repeat (apply orb_false_elim in H1 as [H1 ?]). 
  repeat case_match; try done; congruence.
Qed.

Lemma pins_feather32u4 s :
  dedicated_pins (macros s) = false ->
  defined "ESP32" (macros s) = false ->
  defined "ESP8266" (macros s) = false ->
  defined "ARDUINO_AVR_FEATHER32U4" (macros s) = true ->
  transceiver_pins s = transceiver (TNum 8) (TNum 7) (TNum 99) (TNum 4) s.
Proof.
  unfold dedicated_pins, transceiver_pins, if_else, c_or. intros H1 H2 H3 H4.
  repeat (apply orb_false_elim in H1 as [H1 ?]).
  repeat case_match; try done; congruence.
Qed.

Lemma pins_feather_rp2040 s :
  dedicated_pins (macros s) = false ->
  defined "ESP32" (macros s) = false ->
  defined "ESP8266" (macros s) = false ->
  defined "ARDUINO_AVR_FEATHER32U4" (macros s) = false ->
  defined "ARDUINO_ADAFRUIT_FEATHER_RP2040" (macros s) = true ->
  transceiver_pins s = transceiver (TNum 7) (TNum 8) (TNum 10) (TNum 11) s.
Proof.
  unfold dedicated_pins, transceiver_pins, if_else, c_or. intros H1 H2 H3 H4 H5.
  repeat (apply orb_false_elim in H1 as [H1 ?]).
  repeat case_match; try done; congruence.
Qed.

Lemma pins_some s :
  dedicated_pins (macros s) || fallback_pins (macros s) = true ->
  exists cs irq gpio rst, transceiver_pins s = transceiver cs irq gpio rst s.
Proof.
  unfold dedicated_pins, fallback_pins, transceiver_pins, if_else, c_or. intros H.
  repeat case_match; try done; eauto.
Qed.

Lemma pins_none s :
  dedicated_pins (macros s) || fallback_pins (macros s) = false ->
  transceiver_pins s = Done s.
Proof.
  unfold dedicated_pins, fallback_pins, transceiver_pins, if_else, c_or, skip. intros H.
  repeat case_match; try done.
Qed.

(** ** The stages of the header *)

Lemma board_target_Some (m : gmap string macro) t :
  board_target m = Some t -> defined (target_macro t) m = true.
Proof. intros H. by apply find_some in H as [_ H]. Qed.

Lemma board_target_ext (m m' : gmap string macro) :
  (forall t, defined (target_macro t) m' = defined (target_macro t) m) ->
  board_target m' = board_target m.
Proof.
  intros H. unfold board_target. generalize targets. intros l.
  induction l as [|t l IH]; simpl; [done|]. by rewrite H, IH.
Qed.

Lemma settings_preserves_target t : preserves (target_macro t) settings.
Proof. destruct t; structural. Qed.

Lemma settings_preserves_family f : preserves (use_macro f) settings.
Proof. destruct f; structural. Qed.

Lemma settings_total : total settings.
Proof. structural. Qed.

Lemma report_total : total report.
Proof. structural. Qed.

(** What the radio chain sees: the build's own [USE_...] macros and the
    one of the target. *)
Lemma family_after_board s s2 f :
  (settings ;; board) s = Done s2 ->
  defined (use_macro f) (macros s2)
  = defined (use_macro f) (macros s) || implied_by_target (macros s) f.
Proof.
  intros (s1 & E1 & E2)%seq_Done.
  rewrite (board_family _ _ _ E2).
  rewrite (defined_lookup _ _ _ (settings_preserves_family f _ _ E1)).
  unfold implied_by_target.
  rewrite (board_target_ext (macros s) (macros s1)); [done|].
  intros t. apply defined_lookup. by apply settings_preserves_target.
Qed.

Lemma selected_after_board s s2 :
  (settings ;; board) s = Done s2 ->
  selected_family (macros s2) = head (effective_families (macros s)).
Proof.
  intros E. rewrite selected_family_head.
  pose proof (fun f => family_after_board _ _ f E) as H.
  pose proof (H CC1101) as H1. pose proof (H SX1276) as H2.
  pose proof (H SX1262) as H3. pose proof (H LR1121) as H4.
  unfold requested_families, effective_families. simpl in *.
  by rewrite H1, H2, H3, H4.
Qed.

Lemma header_body_after_board s s2 :
  (settings ;; board) s = Done s2 ->
  header_body s
  = match selected_family (macros s2) with
    | Some f =>
        (define "TRANSCEIVER_CHIP" (obj [TStr (chip_label f)]) ;;
         transceiver_pins ;; report) s2
    | None => Failed no_family_message
    end.
Proof.
  intros (s1 & E1 & E2)%seq_Done.
  unfold header_body. unfold seq at 1. rewrite E1.
  unfold seq at 1. rewrite E2.
  unfold seq at 1. rewrite radio_transceiver_selected.
  by destruct (selected_family (macros s2)).
Qed.

(** The header as a whole: it stops exactly when no family is in play, and
    otherwise runs the pin chain and the report on the table the board
    chain left, with [TRANSCEIVER_CHIP] added. *)
Lemma header_body_outcome s :
  match head (effective_families (macros s)) with
  | None => header_body s = Failed no_family_message
  | Some f =>
      exists s2 s3 s4 s',
        (settings ;; board) s = Done s2
        /\ define "TRANSCEIVER_CHIP" (obj [TStr (chip_label f)]) s2 = Done s3
        /\ transceiver_pins s3 = Done s4
        /\ report s4 = Done s'
        /\ header_body s = Done s'
  end.
Proof.
  destruct (total_seq _ _ settings_total board_total s) as [s2 E2].
  rewrite <- (selected_after_board _ _ E2), (header_body_after_board _ _ E2).
  destruct (selected_family (macros s2)) as [f|]; [|done].
  destruct (total_define "TRANSCEIVER_CHIP" (obj [TStr (chip_label f)]) s2) as [s3 E3].
  destruct (transceiver_pins_total s3) as [s4 E4].
  destruct (report_total s4) as [s' E5].
  exists s2, s3, s4, s'. repeat split; try done.
  unfold seq. by rewrite E3, E4.
Qed.

(** A macro that neither the settings nor the board chain touch reaches
    the pin chain as the build set it. *)
Lemma defined_before_pins k b s s2 s3 :
  preserves k (settings ;; board) ->
  k ≠ "TRANSCEIVER_CHIP" ->
  (settings ;; board) s = Done s2 ->
  define "TRANSCEIVER_CHIP" b s2 = Done s3 ->
  defined k (macros s3) = defined k (macros s).
Proof.
  intros Hk Hne E2 [= <-]. simpl. rewrite defined_insert_ne by done.
  apply defined_lookup. by apply Hk.
Qed.

Ltac before_pins E2 E3 k :=
  rewrite (defined_before_pins k _ _ _ _
             ltac:(structural) ltac:(discriminate) E2 E3).

Lemma cover_lora_before_pins b s s2 s3 :
  (settings ;; board) s = Done s2 ->
  define "TRANSCEIVER_CHIP" b s2 = Done s3 ->
  defined "FIREBEETLE_ESP32_COVER_LORA" (macros s3)
  = defined "FIREBEETLE_ESP32_COVER_LORA" (macros s) || firebeetle_target (macros s).
Proof.
  intros (s1 & E1 & E2)%seq_Done [= <-]. simpl. rewrite defined_insert_ne by done.
  rewrite (board_cover_lora _ _ E2).
  assert (preserves "FIREBEETLE_ESP32_COVER_LORA" settings) as H by structural.
  rewrite (defined_lookup _ _ _ (H _ _ E1)).
  unfold firebeetle_target.
  rewrite (board_target_ext (macros s) (macros s1)); [done|].
  intros t. apply defined_lookup. by apply settings_preserves_target.
Qed.

Lemma dedicated_before_pins b s s2 s3 :
  (settings ;; board) s = Done s2 ->
  define "TRANSCEIVER_CHIP" b s2 = Done s3 ->
  dedicated_pins (macros s3)
  = dedicated_pins (macros s) || firebeetle_target (macros s).
Proof.
  intros E2 E3. unfold dedicated_pins, c_or.
  rewrite (cover_lora_before_pins _ _ _ _ E2 E3).
  before_pins E2 E3 "LORAWAN_NODE".
  before_pins E2 E3 "ARDUINO_TTGO_LoRa32_V1".
  before_pins E2 E3 "ARDUINO_TTGO_LoRa32_V2".
  before_pins E2 E3 "ARDUINO_TTGO_LoRa32_v21new".
  before_pins E2 E3 "ARDUINO_heltec_wireless_stick".
  before_pins E2 E3 "ARDUINO_heltec_wifi_lora_32_V2".
  before_pins E2 E3 "ARDUINO_ADAFRUIT_FEATHER_ESP32S2".
  before_pins E2 E3 "ARDUINO_FEATHER_ESP32".
  destruct (firebeetle_target (macros s)); simpl;
    rewrite ?orb_true_r, ?orb_false_r; done.
Qed.

Lemma fallback_before_pins b s s2 s3 :
  (settings ;; board) s = Done s2 ->
  define "TRANSCEIVER_CHIP" b s2 = Done s3 ->
  fallback_pins (macros s3) = fallback_pins (macros s).
Proof.
  intros E2 E3. unfold fallback_pins, c_or.
  before_pins E2 E3 "ESP32".
  before_pins E2 E3 "ESP8266".
  before_pins E2 E3 "ARDUINO_AVR_FEATHER32U4".
  before_pins E2 E3 "ARDUINO_ADAFRUIT_FEATHER_RP2040".
  done.
Qed.

(** ** Following a build to the end of the header *)

Lemma requested_nil (m : gmap string macro) :
  requested_families m = [] ->
  forall f, defined (use_macro f) m = false.
Proof.
  unfold requested_families. simpl. intros H f.
  destruct (defined "USE_CC1101" m) eqn:?, (defined "USE_SX1276" m) eqn:?,
    (defined "USE_SX1262" m) eqn:?, (defined "USE_LR1121" m) eqn:?;
    try discriminate; by destruct f.
Qed.

Lemma implied_by_own_target (m : gmap string macro) t :
  board_target m = Some t -> implied_by_target m (implied_family t) = true.
Proof. unfold implied_by_target. intros ->. by destruct (implied_family t). Qed.

Lemma effective_of_target (m : gmap string macro) t :
  board_target m = Some t ->
  (forall f, defined (use_macro f) m = true -> f = implied_family t) ->
  effective_families m = [implied_family t].
Proof.
  intros Ht H. unfold effective_families, implied_by_target. rewrite Ht. simpl.
  pose proof (H CC1101) as H1. pose proof (H SX1276) as H2.
  pose proof (H SX1262) as H3. pose proof (H LR1121) as H4. simpl in *.
  destruct (defined "USE_CC1101" m), (defined "USE_SX1276" m),
    (defined "USE_SX1262" m), (defined "USE_LR1121" m);
    destruct (implied_family t); simpl; try done;
    (by discriminate H1) || (by discriminate H2) || (by discriminate H3)
    || (by discriminate H4).
Qed.

Lemma effective_without_target (m : gmap string macro) :
  board_target m = None -> effective_families m = requested_families m.
Proof.
  intros Ht. unfold effective_families, requested_families, implied_by_target.
  rewrite Ht. simpl. by rewrite !orb_false_r.
Qed.

Lemma effective_target_head (m : gmap string macro) t :
  board_target m = Some t -> exists f, head (effective_families m) = Some f.
Proof.
  intros Ht. unfold effective_families, implied_by_target. rewrite Ht. simpl.
  destruct (defined "USE_CC1101" m), (defined "USE_SX1276" m),
    (defined "USE_SX1262" m), (defined "USE_LR1121" m);
    destruct (implied_family t); simpl; eauto.
Qed.

(** The macros the radio chain, the pin chain and the report leave
    alone. *)
Lemma pins_reach_end cs irq gpio rst s3 s4 s' :
  transceiver cs irq gpio rst s3 = Done s4 ->
  report s4 = Done s' ->
  pins_are (macros s') cs irq gpio rst.
Proof.
  intros E4%transceiver_pins_are E5. unfold pins_are in *.
  rewrite !(fun k (H : preserves k report) => H _ _ E5) by structural. done.
Qed.

Lemma chip_reaches_end b s2 s3 s4 s' :
  define "TRANSCEIVER_CHIP" b s2 = Done s3 ->
  transceiver_pins s3 = Done s4 ->
  report s4 = Done s' ->
  macros s' !! "TRANSCEIVER_CHIP" = Some b.
Proof.
  intros [= <-] E4 E5.
  assert (preserves "TRANSCEIVER_CHIP" (transceiver_pins ;; report)) as H by structural.
  rewrite (H (State (<["TRANSCEIVER_CHIP":=b]> (macros s2)) (messages s2)) s').
  - simpl. by rewrite lookup_insert_eq.
  - apply seq_Done. eauto.
Qed.

Lemma tail_preserves_family b f :
  preserves (use_macro f) (define "TRANSCEIVER_CHIP" b ;; transceiver_pins ;; report).
Proof. destruct f; structural. Qed.

Lemma requested_at_end b s s2 s3 s4 s' :
  (settings ;; board) s = Done s2 ->
  define "TRANSCEIVER_CHIP" b s2 = Done s3 ->
  transceiver_pins s3 = Done s4 ->
  report s4 = Done s' ->
  requested_families (macros s') = effective_families (macros s).
Proof.
  intros E2 E3 E4 E5.
  assert (forall f, defined (use_macro f) (macros s')
                    = defined (use_macro f) (macros s) || implied_by_target (macros s) f) as H.
  { intros f. rewrite <- (family_after_board _ _ _ E2). apply defined_lookup.
    apply (tail_preserves_family b f). apply seq_Done. exists s3. split; [done|].
    apply seq_Done. eauto. }
  pose proof (H CC1101) as H1. pose proof (H SX1276) as H2.
  pose proof (H SX1262) as H3. pose proof (H LR1121) as H4.
  unfold requested_families, effective_families. simpl in *.
  by rewrite H1, H2, H3, H4.
Qed.

(** Every target of the board chain is caught by some branch of the pin
    chain, those without a pin block of their own by the generic ESP32
    branch. *)
Lemma target_has_pins (m : gmap string macro) t :
  board_target m = Some t ->
  (no_own_pin_block t = true -> defined "ESP32" m = true) ->
  (dedicated_pins m || firebeetle_target m) || fallback_pins m = true.
Proof.
  intros Ht Hcore. pose proof (board_target_Some _ _ Ht) as Hd.
  unfold firebeetle_target. rewrite Ht.
  unfold dedicated_pins, fallback_pins, c_or.
  destruct t; simpl in *; rewrite ?Hd, ?Hcore by done; simpl;
    rewrite ?orb_true_r; done.
Qed.

(** What the settings of lines 54-63 define is still there at the end. *)
Lemma settings_reach_end s s' :
  header_body s = Done s' ->
  macros s' !! "TX_INTERVAL" = Some (obj [TNum 30])
  /\ macros s' !! "DATA_JSON_INPUT" = Some (obj []).
Proof.
  unfold header_body. intros (s1 & E1 & E)%seq_Done.
  assert (preserves "TX_INTERVAL"
            (board ;; radio_transceiver ;; transceiver_pins ;; report)) as H1
    by structural.
  assert (preserves "DATA_JSON_INPUT"
            (board ;; radio_transceiver ;; transceiver_pins ;; report)) as H2
    by structural.
  rewrite (H1 _ _ E), (H2 _ _ E).
  injection E1 as <-. simpl. defs. done.
Qed.

(** The T3S3 branches of the board chain define the four
    [PIN_RECEIVER_...] macros. *)
Lemma board_t3s3_receiver s s' t :
  board s = Done s' ->
  board_target (macros s) = Some t ->
  is_t3s3 t = true ->
  receiver_pins_are (macros s').
Proof.
  unfold board_target, receiver_pins_are. stages. run. intros E Ht Hs.
  repeat case_match; simplify_eq; simpl in *; try discriminate; defs; done.
Qed.

Lemma receiver_pins_reach_end s s' t :
  header_body s = Done s' ->
  board_target (macros s) = Some t ->
  is_t3s3 t = true ->
  receiver_pins_are (macros s').
Proof.
  unfold header_body. intros (s1 & E1 & (s2 & E2 & E)%seq_Done)%seq_Done Ht Hs.
  assert (receiver_pins_are (macros s2)) as H2.
  { apply (board_t3s3_receiver s1 s2 t); try done.
    rewrite <- Ht. apply board_target_ext. intros t'. apply defined_lookup.
    by apply settings_preserves_target. }
  unfold receiver_pins_are in *.
  rewrite !(fun k (H : preserves k (radio_transceiver ;; transceiver_pins ;; report)) =>
              H _ _ E) by structural.
  done.
Qed.

(** The Feather RP2040 is selected only when the Feather 32u4 is not. *)
Lemma board_target_rp2040 (m : gmap string macro) :
  board_target m = Some ADAFRUIT_FEATHER_RP2040 ->
  defined "ARDUINO_AVR_FEATHER32U4" m = false.
Proof.
  unfold board_target. simpl. intros H. by repeat case_match.
Qed.

(** The pin chain never leaves a partial set: at the end of a build either
    all four pins are defined by one branch, or the four macros are as the
    build had them. *)
Lemma pins_all_or_untouched s s' :
  header_body s = Done s' ->
  (exists cs irq gpio rst, pins_are (macros s') cs irq gpio rst)
  \/ (forall p, p ∈ pin_macros -> macros s' !! p = macros s !! p).
Proof.
  intros E. pose proof (header_body_outcome s) as H.
  destruct (head (effective_families (macros s))) as [f|]; [|congruence].
  destruct H as (s2 & s3 & s4 & s0 & E2 & E3 & E4 & E5 & E0).
  assert (s0 = s') as -> by congruence.
  destruct (dedicated_pins (macros s3) || fallback_pins (macros s3)) eqn:Hc.
  - left. destruct (pins_some s3 Hc) as (cs & irq & gpio & rst & Ep).
    rewrite Ep in E4. exists cs, irq, gpio, rst.
    apply (pins_reach_end _ _ _ _ _ _ _ E4 E5).
  - right. intros p Hp. rewrite (pins_none s3 Hc) in E4.
    injection E4 as <-. injection E3 as <-.
    assert (forall k, preserves k report -> preserves k (settings ;; board) ->
              k ≠ "TRANSCEIVER_CHIP" -> macros s' !! k = macros s !! k) as Hk.
    { intros k H1 H2 H3. rewrite (H1 _ _ E5). simpl.
      rewrite lookup_insert_ne by done. by apply H2. }
    unfold pin_macros in Hp.
    repeat (apply elem_of_cons in Hp as [->|Hp];
            [apply Hk; [structural..|discriminate]|]).
    by apply elem_of_nil in Hp.
Qed.

(** ** The claims *)

(** C1.  For every hardware target of the board chain the header
    resolves: it ends without [#error], [TRANSCEIVER_CHIP] names one radio
    family, and all four transceiver pin macros (CS, IRQ, GPIO, RST) are
    defined.  The targets without a pin block of their own are ESP32 boards
    and are taken as built for that platform, with [ESP32] defined.  When
    the build asks for no family of its own, exactly one [USE_...] macro is
    defined at the end. *)
Theorem supported_target_resolves s t :
  board_target (macros s) = Some t ->
  (no_own_pin_block t = true -> defined "ESP32" (macros s) = true) ->
  exists s' f cs irq gpio rst,
    header_body s = Done s'
    /\ macros s' !! "TRANSCEIVER_CHIP" = Some (obj [TStr (chip_label f)])
    /\ pins_are (macros s') cs irq gpio rst
    /\ (requested_families (macros s) = [] ->
        requested_families (macros s') = [f]).
Proof.
  intros Ht Hcore.
  destruct (effective_target_head _ _ Ht) as [f Hf].
  pose proof (header_body_outcome s) as H. rewrite Hf in H.
  destruct H as (s2 & s3 & s4 & s' & E2 & E3 & E4 & E5 & E).
  destruct (pins_some s3) as (cs & irq & gpio & rst & Ep).
  { rewrite (dedicated_before_pins _ _ _ _ E2 E3), (fallback_before_pins _ _ _ _ E2 E3).
    by apply (target_has_pins _ t). }
  rewrite Ep in E4.
  exists s', f, cs, irq, gpio, rst. repeat split.
  - done.
  - by apply (chip_reaches_end _ _ _ _ _ E3 ltac:(by rewrite Ep) E5).
  - apply (pins_reach_end _ _ _ _ _ _ _ E4 E5).
  - apply (pins_reach_end _ _ _ _ _ _ _ E4 E5).
  - apply (pins_reach_end _ _ _ _ _ _ _ E4 E5).
  - apply (pins_reach_end _ _ _ _ _ _ _ E4 E5).
  - intros Hreq.
    rewrite (requested_at_end _ _ _ _ _ _ E2 E3 ltac:(by rewrite Ep) E5).
    rewrite (effective_of_target _ t) in Hf |- *; try done.
    + by injection Hf as ->.
    + intros g Hg. by rewrite (requested_nil _ Hreq) in Hg.
    + intros g Hg. by rewrite (requested_nil _ Hreq) in Hg.
Qed.

Lemma supported_target_resolves_witness :
  board_target (macros (build [D "ARDUINO_LILYGO_T3S3_SX1262"; D "ESP32"]))
  = Some LILYGO_T3S3_SX1262
  /\ defined "ESP32" (macros (build [D "ARDUINO_LILYGO_T3S3_SX1262"; D "ESP32"])) = true
  /\ exists s' f cs irq gpio rst,
       header_body (build [D "ARDUINO_LILYGO_T3S3_SX1262"; D "ESP32"]) = Done s'
       /\ macros s' !! "TRANSCEIVER_CHIP" = Some (obj [TStr (chip_label f)])
       /\ pins_are (macros s') cs irq gpio rst
       /\ (requested_families
             (macros (build [D "ARDUINO_LILYGO_T3S3_SX1262"; D "ESP32"])) = [] ->
           requested_families (macros s') = [f]).
Proof.
  split; [vm_compute; reflexivity|].
  split; [vm_compute; reflexivity|].
  apply (supported_target_resolves _ LILYGO_T3S3_SX1262).
  - vm_compute; reflexivity.
  - intros _. vm_compute; reflexivity.
Defined.

(** C2 as stated fails: a build that asks for two radio families is not
    rejected.  With [USE_CC1101] and [USE_SX1276] both given the header
    runs to its end and settles on the CC1101. *)
Lemma two_families_not_rejected :
  requested_families (macros (build [D "USE_CC1101"; D "USE_SX1276"]))
  = [CC1101; SX1276]
  /\ exists s',
       header_body (build [D "USE_CC1101"; D "USE_SX1276"]) = Done s'
       /\ macros s' !! "TRANSCEIVER_CHIP" = Some (obj [TStr "[CC1101]"]).
Proof.
  split; [vm_compute; reflexivity|].
  eexists. split; [vm_compute; reflexivity|]. vm_compute. reflexivity.
Qed.

(** C2, amended.  Resolution stops at the [#error] of line 228 exactly when
    no radio family is in play, that is when the build defines none of
    [USE_CC1101], [USE_SX1276], [USE_SX1262], [USE_LR1121] and its target
    implies none.  With one or several in play it does not stop: it takes
    the first of CC1101, SX1276, SX1262, LR1121 that is in play. *)
Theorem radio_family_resolution s :
  (effective_families (macros s) = [] ->
   header_body s = Failed no_family_message)
  /\ (forall f, head (effective_families (macros s)) = Some f ->
      exists s',
        header_body s = Done s'
        /\ macros s' !! "TRANSCEIVER_CHIP" = Some (obj [TStr (chip_label f)]))
  /\ (board_target (macros s) = None ->
      effective_families (macros s) = requested_families (macros s)).
Proof.
  pose proof (header_body_outcome s) as H. repeat split.
  - intros Heff. by rewrite Heff in H.
  - intros f Hf. rewrite Hf in H.
    destruct H as (s2 & s3 & s4 & s' & E2 & E3 & E4 & E5 & E).
    exists s'. split; [done|]. apply (chip_reaches_end _ _ _ _ _ E3 E4 E5).
  - apply effective_without_target.
Qed.

Lemma radio_family_resolution_witness :
  header_body (build [D "ESP32"]) = Failed no_family_message
  /\ exists s',
       header_body (build [D "ESP32"; D "USE_SX1262"; D "USE_LR1121"]) = Done s'
       /\ macros s' !! "TRANSCEIVER_CHIP" = Some (obj [TStr "[SX1262]"]).
Proof.
  split.
  - apply (proj1 (radio_family_resolution (build [D "ESP32"]))).
    vm_compute; reflexivity.
  - apply (proj1 (proj2 (radio_family_resolution
                            (build [D "ESP32"; D "USE_SX1262"; D "USE_LR1121"])))
             SX1262).
    vm_compute; reflexivity.
Defined.

(** C3 as stated fails: a build that selects two payload sources is not
    rejected; the header adds [DATA_JSON_INPUT] as a third. *)
Lemma two_payload_sources_not_rejected :
  count_defined data_sources
    (macros (build [D "DATA_RAW"; D "DATA_GEN"; D "ESP32"; D "USE_SX1276"])) = 2
  /\ exists s',
       header_body (build [D "DATA_RAW"; D "DATA_GEN"; D "ESP32"; D "USE_SX1276"])
       = Done s'
       /\ count_defined data_sources (macros s') = 3.
Proof.
  split; [vm_compute; reflexivity|].
  eexists. split; [vm_compute; reflexivity|]. vm_compute. reflexivity.
Qed.

(** C3, amended.  The header has no check on the payload-source group.
    It defines [DATA_JSON_INPUT] itself in every build and leaves
    [DATA_RAW], [DATA_GEN] and [DATA_JSON_CONST] as the build set them;
    whether resolution stops depends on the radio family alone. *)
Theorem payload_source_unchecked s :
  match head (effective_families (macros s)) with
  | None => header_body s = Failed no_family_message
  | Some _ =>
      exists s',
        header_body s = Done s'
        /\ defined "DATA_JSON_INPUT" (macros s') = true
        /\ count_defined data_sources (macros s')
           = S (count_defined ["DATA_RAW"; "DATA_GEN"; "DATA_JSON_CONST"] (macros s))
  end.
Proof.
  pose proof (header_body_outcome s) as H.
  destruct (head (effective_families (macros s))) as [f|]; [|done].
  destruct H as (s2 & s3 & s4 & s' & E2 & E3 & E4 & E5 & E).
  exists s'. split; [done|].
  assert (header_body s = Done s') as E' by done.
  assert (forall k, preserves k header_body ->
                    defined k (macros s') = defined k (macros s)) as Hk.
  { intros k Hp. apply defined_lookup. by apply Hp. }
  assert (defined "DATA_JSON_INPUT" (macros s') = true) as Hin.
  { apply (defined_Some _ (obj [])). by apply (settings_reach_end s). }
  split; [done|].
  unfold count_defined, data_sources. simpl.
  rewrite Hin, (Hk "DATA_RAW"), (Hk "DATA_GEN"), (Hk "DATA_JSON_CONST") by structural.
  repeat case_match; done.
Qed.

Lemma payload_source_unchecked_witness :
  exists s',
    header_body (build [D "DATA_RAW"; D "ESP8266"; D "USE_CC1101"]) = Done s'
    /\ defined "DATA_JSON_INPUT" (macros s') = true
    /\ count_defined data_sources (macros s') = 2.
Proof.
  apply (payload_source_unchecked (build [D "DATA_RAW"; D "ESP8266"; D "USE_CC1101"])).
Defined.

(** C4 as stated fails: a FireBeetle build with [LORAWAN_NODE] has both
    [LORAWAN_NODE] and [FIREBEETLE_ESP32_COVER_LORA] defined (the second by
    line 197) and is not rejected; it ends with the pins of the
    LoRaWAN_Node. *)
Lemma firebeetle_with_lorawan_node_not_rejected :
  exists s',
    header_body
      (build [D "ARDUINO_DFROBOT_FIREBEETLE_ESP32"; D "ESP32"; D "LORAWAN_NODE"])
    = Done s'
    /\ defined "LORAWAN_NODE" (macros s') = true
    /\ defined "FIREBEETLE_ESP32_COVER_LORA" (macros s') = true
    /\ pins_are (macros s') (TNum 14) (TNum 4) (TNum 16) (TNum 12).
Proof.
  eexists. split; [vm_compute; reflexivity|]. vm_compute. auto 6.
Qed.

(** C4, amended.  For every FireBeetle build in which [LORAWAN_NODE] is
    defined, resolution does not stop: both [LORAWAN_NODE] and
    [FIREBEETLE_ESP32_COVER_LORA] are defined at the end, the Cover-LoRa
    branch of the board chain has defined [USE_SX1276], and the pin chain,
    which tests [LORAWAN_NODE] first, has set the LoRaWAN_Node pins
    CS=14, IRQ=4, GPIO=16, RST=12. *)
Theorem firebeetle_both_selected s :
  board_target (macros s) = Some DFROBOT_FIREBEETLE_ESP32 ->
  defined "LORAWAN_NODE" (macros s) = true ->
  exists s',
    header_body s = Done s'
    /\ defined "LORAWAN_NODE" (macros s') = true
    /\ defined "FIREBEETLE_ESP32_COVER_LORA" (macros s') = true
    /\ defined "USE_SX1276" (macros s') = true
    /\ pins_are (macros s') (TNum 14) (TNum 4) (TNum 16) (TNum 12).
Proof.
  intros Ht Hl.
  destruct (effective_target_head _ _ Ht) as [f Hf].
  pose proof (header_body_outcome s) as H. rewrite Hf in H.
  destruct H as (s2 & s3 & s4 & s' & E2 & E3 & E4 & E5 & E).
  assert (defined "LORAWAN_NODE" (macros s3) = true) as Hl3.
  { before_pins E2 E3 "LORAWAN_NODE". done. }
  assert (defined "FIREBEETLE_ESP32_COVER_LORA" (macros s3) = true) as Hc3.
  { rewrite (cover_lora_before_pins _ _ _ _ E2 E3).
    unfold firebeetle_target. rewrite Ht. apply orb_true_r. }
  assert (grows (transceiver_pins ;; report)) as Hg by structural.
  assert ((transceiver_pins ;; report) s3 = Done s') as E45.
  { apply seq_Done. eauto. }
  exists s'. repeat split; try done.
  - by apply (Hg _ _ _ E45).
  - by apply (Hg _ _ _ E45).
  - assert (grows (define "TRANSCEIVER_CHIP" (obj [TStr (chip_label f)]) ;;
                   transceiver_pins ;; report)) as Hg2 by structural.
    apply (Hg2 s2 s').
    + apply seq_Done. eauto.
    + change (defined (use_macro SX1276) (macros s2) = true).
      rewrite (family_after_board _ _ _ E2).
      rewrite (implied_by_own_target _ _ Ht : implied_by_target _ SX1276 = true).
      apply orb_true_r.
  - rewrite (pins_lorawan_node _ Hl3) in E4.
    apply (pins_reach_end _ _ _ _ _ _ _ E4 E5).
  - rewrite (pins_lorawan_node _ Hl3) in E4.
    apply (pins_reach_end _ _ _ _ _ _ _ E4 E5).
  - rewrite (pins_lorawan_node _ Hl3) in E4.
    apply (pins_reach_end _ _ _ _ _ _ _ E4 E5).
  - rewrite (pins_lorawan_node _ Hl3) in E4.
    apply (pins_reach_end _ _ _ _ _ _ _ E4 E5).
Qed.

Lemma firebeetle_both_selected_witness :
  board_target
    (macros (build [D "ARDUINO_DFROBOT_FIREBEETLE_ESP32"; D "LORAWAN_NODE"]))
  = Some DFROBOT_FIREBEETLE_ESP32
  /\ exists s',
       header_body (build [D "ARDUINO_DFROBOT_FIREBEETLE_ESP32"; D "LORAWAN_NODE"])
       = Done s'
       /\ defined "LORAWAN_NODE" (macros s') = true
       /\ defined "FIREBEETLE_ESP32_COVER_LORA" (macros s') = true
       /\ defined "USE_SX1276" (macros s') = true
       /\ pins_are (macros s') (TNum 14) (TNum 4) (TNum 16) (TNum 12).
Proof.
  split; [vm_compute; reflexivity|].
  apply firebeetle_both_selected; vm_compute; reflexivity.
Defined.

(** C5.  An ESP32 build that no dedicated branch of the pin chain catches
    gets the generic ESP32 pins CS=27, IRQ=21, GPIO=33, RST=32 whenever
    resolution runs to the end, which it does as soon as a radio family is
    in play.  This is the case of the three LilyGo T3S3 targets: their
    branches of the board chain bring the family and define only
    [PIN_RECEIVER_...] macros, which the pin chain does not look at. *)
Theorem generic_esp32_pins s :
  defined "ESP32" (macros s) = true ->
  dedicated_pins (macros s) = false ->
  firebeetle_target (macros s) = false ->
  (forall f, head (effective_families (macros s)) = Some f ->
     exists s',
       header_body s = Done s'
       /\ pins_are (macros s') (TNum 27) (TNum 21) (TNum 33) (TNum 32))
  /\ (forall t,
        board_target (macros s) = Some t ->
        is_t3s3 t = true ->
        exists s',
          header_body s = Done s'
          /\ pins_are (macros s') (TNum 27) (TNum 21) (TNum 33) (TNum 32)
          /\ receiver_pins_are (macros s')).
Proof.
  intros He Hd Hfb.
  assert (forall f, head (effective_families (macros s)) = Some f ->
     exists s',
       header_body s = Done s'
       /\ pins_are (macros s') (TNum 27) (TNum 21) (TNum 33) (TNum 32)) as Hgen.
  { intros f Hf.
    pose proof (header_body_outcome s) as H. rewrite Hf in H.
    destruct H as (s2 & s3 & s4 & s' & E2 & E3 & E4 & E5 & E).
    exists s'. split; [done|].
    rewrite pins_generic_esp32 in E4.
    - apply (pins_reach_end _ _ _ _ _ _ _ E4 E5).
    - rewrite (dedicated_before_pins _ _ _ _ E2 E3). by rewrite Hd, Hfb.
    - before_pins E2 E3 "ESP32". done. }
  split; [done|].
  intros t Ht Hs.
  destruct (effective_target_head _ _ Ht) as [f Hf].
  destruct (Hgen f Hf) as (s' & E & Hp).
  exists s'. split; [done|]. split; [done|].
  by apply (receiver_pins_reach_end s s' t).
Qed.

Lemma generic_esp32_pins_witness :
  defined "ESP32" (macros (build [D "ARDUINO_LILYGO_T3S3_SX1276"; D "ESP32"])) = true
  /\ dedicated_pins (macros (build [D "ARDUINO_LILYGO_T3S3_SX1276"; D "ESP32"])) = false
  /\ firebeetle_target (macros (build [D "ARDUINO_LILYGO_T3S3_SX1276"; D "ESP32"])) = false
  /\ exists s',
       header_body (build [D "ARDUINO_LILYGO_T3S3_SX1276"; D "ESP32"]) = Done s'
       /\ pins_are (macros s') (TNum 27) (TNum 21) (TNum 33) (TNum 32)
       /\ receiver_pins_are (macros s').
Proof.
  split; [vm_compute; reflexivity|].
  split; [vm_compute; reflexivity|].
  split; [vm_compute; reflexivity|].
  apply (proj2 (generic_esp32_pins
                  (build [D "ARDUINO_LILYGO_T3S3_SX1276"; D "ESP32"])
                  ltac:(vm_compute; reflexivity) ltac:(vm_compute; reflexivity)
                  ltac:(vm_compute; reflexivity))
           LILYGO_T3S3_SX1276);
    vm_compute; reflexivity.
Defined.

(** C6 as stated fails: a board the board chain does not know is not
    rejected once the build names a radio family.  Without a platform the
    pin chain knows, the header ends with no transceiver pin defined; on an
    ESP32 the same board silently gets the generic ESP32 pins. *)
Lemma unknown_board_not_rejected :
  (board_target (macros (build [D "ARDUINO_BLUEPILL_F103C8"; D "USE_CC1101"])) = None
   /\ exists s',
        header_body (build [D "ARDUINO_BLUEPILL_F103C8"; D "USE_CC1101"]) = Done s'
        /\ count_defined pin_macros (macros s') = 0)
  /\ (board_target (macros (build [D "ARDUINO_M5STACK_CORE2"; D "ESP32"; D "USE_SX1276"]))
      = None
      /\ exists s',
           header_body (build [D "ARDUINO_M5STACK_CORE2"; D "ESP32"; D "USE_SX1276"])
           = Done s'
           /\ pins_are (macros s') (TNum 27) (TNum 21) (TNum 33) (TNum 32)).
Proof.
  split; (split; [vm_compute; reflexivity|]);
    (eexists; split; [vm_compute; reflexivity|]); vm_compute; auto.
Qed.

(** C6, amended.  The only thing the header rejects is a build with no
    radio family.  A build whose board the board chain does not recognise
    is rejected when it defines no [USE_...] macro and accepted otherwise:
    it then gets the pins of the first branch of the pin chain that
    matches, and when none matches the header ends with the four pin
    macros as the build had them. *)
Theorem unrecognised_board_resolution s :
  board_target (macros s) = None ->
  (requested_families (macros s) = [] ->
   header_body s = Failed no_family_message)
  /\ (forall f, head (requested_families (macros s)) = Some f ->
      exists s',
        header_body s = Done s'
        /\ macros s' !! "TRANSCEIVER_CHIP" = Some (obj [TStr (chip_label f)])
        /\ (dedicated_pins (macros s) || fallback_pins (macros s) = true ->
            exists cs irq gpio rst, pins_are (macros s') cs irq gpio rst)
        /\ (dedicated_pins (macros s) || fallback_pins (macros s) = false ->
            forall p, p ∈ pin_macros -> macros s' !! p = macros s !! p)).
Proof.
  intros Ht. pose proof (header_body_outcome s) as H.
  rewrite (effective_without_target _ Ht) in H.
  assert (firebeetle_target (macros s) = false) as Hfb.
  { unfold firebeetle_target. by rewrite Ht. }
  split.
  - intros Hreq. by rewrite Hreq in H.
  - intros f Hf. rewrite Hf in H.
    destruct H as (s2 & s3 & s4 & s' & E2 & E3 & E4 & E5 & E).
    pose proof (dedicated_before_pins _ _ _ _ E2 E3) as Hd.
    pose proof (fallback_before_pins _ _ _ _ E2 E3) as Hfall.
    rewrite Hfb, orb_false_r in Hd.
    exists s'. split; [done|].
    split; [apply (chip_reaches_end _ _ _ _ _ E3 E4 E5)|].
    split.
    + intros Hsome. destruct (pins_some s3) as (cs & irq & gpio & rst & Ep).
      { by rewrite Hd, Hfall. }
      rewrite Ep in E4. exists cs, irq, gpio, rst.
      apply (pins_reach_end _ _ _ _ _ _ _ E4 E5).
    + intros Hnone p Hp. rewrite pins_none in E4 by (by rewrite Hd, Hfall).
      injection E4 as <-. injection E3 as <-.
      assert (forall k, preserves k report -> preserves k (settings ;; board) ->
                k ≠ "TRANSCEIVER_CHIP" -> macros s' !! k = macros s !! k) as Hk.
      { intros k H1 H2 H3. rewrite (H1 _ _ E5). simpl.
        rewrite lookup_insert_ne by done. by apply H2. }
      unfold pin_macros in Hp.
      repeat (apply elem_of_cons in Hp as [->|Hp]; [apply Hk; [structural..|discriminate]|]).
      by apply elem_of_nil in Hp.
Qed.

Lemma unrecognised_board_resolution_witness :
  board_target (macros (build [D "ARDUINO_D1_MINI"; D "ESP8266"; D "USE_CC1101"])) = None
  /\ exists s',
       header_body (build [D "ARDUINO_D1_MINI"; D "ESP8266"; D "USE_CC1101"]) = Done s'
       /\ macros s' !! "TRANSCEIVER_CHIP" = Some (obj [TStr "[CC1101]"])
       /\ exists cs irq gpio rst, pins_are (macros s') cs irq gpio rst.
Proof.
  split; [vm_compute; reflexivity|].
  destruct (proj2 (unrecognised_board_resolution
                     (build [D "ARDUINO_D1_MINI"; D "ESP8266"; D "USE_CC1101"])
                     ltac:(vm_compute; reflexivity)) CC1101
                  ltac:(vm_compute; reflexivity))
    as (s' & E & Hchip & Hsome & _).
  exists s'. split; [exact E|]. split; [exact Hchip|].
  apply Hsome. vm_compute; reflexivity.
Defined.

(** C7.  A target that implies a radio family gets exactly that family:
    SX1276 for the TTGO LoRa32, Heltec, Adafruit Feather and FireBeetle
    targets and for [ARDUINO_LILYGO_T3S3_SX1276], SX1262 for
    [ARDUINO_LILYGO_T3S3_SX1262], LR1121 for [ARDUINO_LILYGO_T3S3_LR1121]
    (the table [implied_family]).  For every build whose target is [t] and
    which asks for no other family, the header ends with
    [TRANSCEIVER_CHIP] set to the label of [implied_family t] and with the
    [USE_...] macro of that family, and of no other, defined. *)
Theorem target_selects_implied_family s t :
  board_target (macros s) = Some t ->
  (forall g, defined (use_macro g) (macros s) = true -> g = implied_family t) ->
  exists s',
    header_body s = Done s'
    /\ macros s' !! "TRANSCEIVER_CHIP"
       = Some (obj [TStr (chip_label (implied_family t))])
    /\ requested_families (macros s') = [implied_family t].
Proof.
  intros Ht Hreq.
  pose proof (effective_of_target _ _ Ht Hreq) as Heff.
  pose proof (header_body_outcome s) as H. rewrite Heff in H. simpl in H.
  destruct H as (s2 & s3 & s4 & s' & E2 & E3 & E4 & E5 & E).
  exists s'. repeat split.
  - done.
  - apply (chip_reaches_end _ _ _ _ _ E3 E4 E5).
  - by rewrite (requested_at_end _ _ _ _ _ _ E2 E3 E4 E5).
Qed.

Lemma target_selects_implied_family_witness :
  board_target (macros (build [D "ARDUINO_LILYGO_T3S3_LR1121"; D "ESP32"]))
  = Some LILYGO_T3S3_LR1121
  /\ exists s',
       header_body (build [D "ARDUINO_LILYGO_T3S3_LR1121"; D "ESP32"]) = Done s'
       /\ macros s' !! "TRANSCEIVER_CHIP" = Some (obj [TStr "[LR1121]"])
       /\ requested_families (macros s') = [LR1121].
Proof.
  split; [vm_compute; reflexivity|].
  apply (target_selects_implied_family _ LILYGO_T3S3_LR1121).
  - vm_compute; reflexivity.
  - intros g. destruct g; vm_compute; discriminate.
Defined.

(** C8.  [Encoders] has exactly five enumerators, which are the five
    encoder kinds of the specification, and a name that is not one of the
    five does not resolve. *)
Theorem Encoders_exactly_five :
  (forall e, e ∈ Encoders_all)
  /\ NoDup Encoders_all
  /\ length Encoders_all = 5%nat
  /\ (forall e, Encoders_lookup (enumerator e) = Some e)
  /\ (forall x, x ∉ map enumerator Encoders_all -> Encoders_lookup x = None)
  /\ (forall e, encoder_of (kind_of e) = e)
  /\ (forall k, kind_of (encoder_of k) = k)
  /\ map Encoders_value Encoders_all = [0; 1; 2; 3; 4]%Z.
Proof.
  repeat split.
  - intros e. unfold Encoders_all. destruct e; set_solver.
  - compute_done.
  - by intros [].
  - intros x Hx. unfold Encoders_lookup, Encoders_all in *.
    cbn [map enumerator] in Hx. cbn [List.find enumerator].
    repeat match goal with
           | |- context [String.eqb ?a x] =>
               destruct (String.eqb_spec a x) as [<-|?]; [exfalso; set_solver|]
           end.
    done.
  - by intros [].
  - by intros [].
Qed.

Lemma Encoders_exactly_five_witness :
  Encoders_lookup "ENC_BRESSER_7IN1" = Some ENC_BRESSER_7IN1
  /\ Encoders_lookup "ENC_BRESSER_8IN1" = None.
Proof.
  split.
  - apply (proj1 (proj2 (proj2 (proj2 Encoders_exactly_five))) ENC_BRESSER_7IN1).
  - apply (proj1 (proj2 (proj2 (proj2 (proj2 Encoders_exactly_five))))).
    vm_compute. intros H. repeat (apply elem_of_cons in H as [H|H]; [discriminate|]).
    by apply elem_of_nil in H.
Defined.

(** C9.  The transmit interval is 30 seconds: [TX_INTERVAL] is 30 after
    the settings and at the end of every build that resolves, whatever the
    build itself had set it to. *)
Theorem tx_interval_default s :
  (exists s1, settings s = Done s1
              /\ macros s1 !! "TX_INTERVAL" = Some (obj [TNum 30]))
  /\ (forall s', header_body s = Done s' ->
                 macros s' !! "TX_INTERVAL" = Some (obj [TNum 30])).
Proof.
  split.
  - eexists. split; [reflexivity|]. simpl. apply lookup_insert_eq.
  - intros s' E. by apply (settings_reach_end s).
Qed.

Lemma tx_interval_default_witness :
  exists s',
    header_body (build [D "ESP32"; D "USE_SX1276"]) = Done s'
    /\ macros s' !! "TX_INTERVAL" = Some (obj [TNum 30]).
Proof.
  eexists. split; [vm_compute; reflexivity|].
  apply (proj2 (tx_interval_default (build [D "ESP32"; D "USE_SX1276"]))).
  vm_compute; reflexivity.
Defined.

(** C10.  The two targets whose pin block marks the auxiliary pin as
    "(not used)", the Adafruit Feather 32u4 and the Feather RP2040, still
    get [PIN_TRANSCEIVER_GPIO] defined with the other three pins: on the
    Feather 32u4 as the placeholder 99 (CS=8, IRQ=7, RST=4), on the Feather
    RP2040 as 10 (CS=7, IRQ=8, RST=11). *)
Theorem unused_gpio_still_defined s :
  dedicated_pins (macros s) = false ->
  defined "ESP32" (macros s) = false ->
  defined "ESP8266" (macros s) = false ->
  (board_target (macros s) = Some AVR_FEATHER32U4 ->
   exists s',
     header_body s = Done s'
     /\ macros s' !! "PIN_TRANSCEIVER_GPIO" = Some (obj [TNum 99])
     /\ pins_are (macros s') (TNum 8) (TNum 7) (TNum 99) (TNum 4))
  /\ (board_target (macros s) = Some ADAFRUIT_FEATHER_RP2040 ->
      exists s',
        header_body s = Done s'
        /\ macros s' !! "PIN_TRANSCEIVER_GPIO" = Some (obj [TNum 10])
        /\ pins_are (macros s') (TNum 7) (TNum 8) (TNum 10) (TNum 11)).
Proof.
  intros Hd He32 He82.
  assert (forall t, board_target (macros s) = Some t ->
            firebeetle_target (macros s) = (if t is DFROBOT_FIREBEETLE_ESP32 then true else false)
            /\ exists s2 s3 s4 s',
              (settings ;; board) s = Done s2
              /\ (exists b, define "TRANSCEIVER_CHIP" b s2 = Done s3)
              /\ transceiver_pins s3 = Done s4
              /\ report s4 = Done s'
              /\ header_body s = Done s') as Hrun.
  { intros t Ht. split; [unfold firebeetle_target; by rewrite Ht|].
    destruct (effective_target_head _ _ Ht) as [f Hf].
    pose proof (header_body_outcome s) as H. rewrite Hf in H.
    destruct H as (s2 & s3 & s4 & s' & E2 & E3 & E4 & E5 & E).
    exists s2, s3, s4, s'. eauto 10. }
  split; intros Ht; destruct (Hrun _ Ht)
    as (Hfb & s2 & s3 & s4 & s' & E2 & [b E3] & E4 & E5 & E);
    pose proof (board_target_Some _ _ Ht) as Hm; simpl in Hm;
    exists s'; (split; [done|]).
  - rewrite pins_feather32u4 in E4.
    + pose proof (pins_reach_end _ _ _ _ _ _ _ E4 E5) as Hp.
      split; [apply Hp | exact Hp].
    + rewrite (dedicated_before_pins _ _ _ _ E2 E3). by rewrite Hd, Hfb.
    + before_pins E2 E3 "ESP32". done.
    + before_pins E2 E3 "ESP8266". done.
    + before_pins E2 E3 "ARDUINO_AVR_FEATHER32U4". done.
  - rewrite pins_feather_rp2040 in E4.
    + pose proof (pins_reach_end _ _ _ _ _ _ _ E4 E5) as Hp.
      split; [apply Hp | exact Hp].
    + rewrite (dedicated_before_pins _ _ _ _ E2 E3). by rewrite Hd, Hfb.
    + before_pins E2 E3 "ESP32". done.
    + before_pins E2 E3 "ESP8266". done.
    + before_pins E2 E3 "ARDUINO_AVR_FEATHER32U4". by apply board_target_rp2040.
    + before_pins E2 E3 "ARDUINO_ADAFRUIT_FEATHER_RP2040". done.
Qed.

Lemma unused_gpio_still_defined_witness :
  dedicated_pins (macros (build [D "ARDUINO_AVR_FEATHER32U4"; D "ARDUINO_ARCH_AVR"])) = false
  /\ board_target (macros (build [D "ARDUINO_AVR_FEATHER32U4"; D "ARDUINO_ARCH_AVR"]))
     = Some AVR_FEATHER32U4
  /\ exists s',
       header_body (build [D "ARDUINO_AVR_FEATHER32U4"; D "ARDUINO_ARCH_AVR"]) = Done s'
       /\ macros s' !! "PIN_TRANSCEIVER_GPIO" = Some (obj [TNum 99])
       /\ pins_are (macros s') (TNum 8) (TNum 7) (TNum 99) (TNum 4).
Proof.
  split; [vm_compute; reflexivity|].
  split; [vm_compute; reflexivity|].
  apply (proj1 (unused_gpio_still_defined
                  (build [D "ARDUINO_AVR_FEATHER32U4"; D "ARDUINO_ARCH_AVR"])
                  ltac:(vm_compute; reflexivity) ltac:(vm_compute; reflexivity)
                  ltac:(vm_compute; reflexivity))).
  vm_compute; reflexivity.
Defined.

(** ** The include guard *)

(** A second inclusion does nothing; the first runs [Arduino.h] and then
    the text above on what it leaves. *)
Lemma SensorTransmitter_h_guard Arduino_h s :
  SensorTransmitter_h Arduino_h s
  = if defined "SENSOR_TRANSMITTER_H" (macros s) then Done s
    else match Arduino_h
                 (State (<["SENSOR_TRANSMITTER_H":=obj []]> (macros s)) (messages s)) with
         | Done s0 => header_body s0
         | Failed msg => Failed msg
         end.
Proof.
  unfold SensorTransmitter_h, if_else, c_not, seq, define, skip.
  by destruct (defined "SENSOR_TRANSMITTER_H" (macros s)).
Qed.

(** ** What the header touches *)

(** X1.  The header writes only its own names: a macro that is not in
    [header_writes] is at the end what the build made it.  In particular
    the header never defines [USE_CC1101], nor a board or platform
    macro. *)
Theorem header_writes_only s s' k :
  header_body s = Done s' ->
  k ∉ header_writes ->
  macros s' !! k = macros s !! k.
Proof.
  intros E Hk. revert s s' E. change (preserves k header_body).
  stages.
  repeat first
    [ apply preserves_seq | apply preserves_if | apply preserves_message
    | apply preserves_skip | apply preserves_error
    | apply preserves_define; intros <-; apply Hk; compute_done ].
Qed.

Lemma header_writes_only_witness :
  exists s',
    header_body (build [("USE_CC1101", obj [TNum 0]); D "ESP8266"]) = Done s'
    /\ macros s' !! "USE_CC1101" = Some (obj [TNum 0])
    /\ macros s' !! "USE_SX1276" = None.
Proof.
  eexists. split; [vm_compute; reflexivity|]. split.
  - rewrite (header_writes_only
               (build [("USE_CC1101", obj [TNum 0]); D "ESP8266"]) _ "USE_CC1101").
    + vm_compute; reflexivity.
    + vm_compute; reflexivity.
    + compute_done.
  - vm_compute; reflexivity.
Defined.

(** X2.  The include guard: where [SENSOR_TRANSMITTER_H] is already defined
    the header does nothing at all, not even stop a build that has no radio
    family; and after an inclusion that ran to the end a second one changes
    nothing, provided [Arduino.h] leaves the guard alone. *)
Theorem include_guard_idempotent Arduino_h s :
  (defined "SENSOR_TRANSMITTER_H" (macros s) = true ->
   SensorTransmitter_h Arduino_h s = Done s)
  /\ (preserves "SENSOR_TRANSMITTER_H" Arduino_h ->
      forall s', SensorTransmitter_h Arduino_h s = Done s' ->
                 SensorTransmitter_h Arduino_h s' = Done s').
Proof.
  split.
  - intros H. by rewrite SensorTransmitter_h_guard, H.
  - intros HA s' E. rewrite SensorTransmitter_h_guard in E |- *.
    destruct (defined "SENSOR_TRANSMITTER_H" (macros s)) eqn:Hg.
    + injection E as <-. by rewrite Hg.
    + destruct (Arduino_h _) as [s0|] eqn:E0; [|done].
      assert (preserves "SENSOR_TRANSMITTER_H" header_body) as Hh by structural.
      assert (defined "SENSOR_TRANSMITTER_H" (macros s') = true) as ->; [|done].
      apply (defined_Some _ (obj [])).
      rewrite (Hh _ _ E), (HA _ _ E0). simpl. apply lookup_insert_eq.
Qed.

Lemma include_guard_idempotent_witness :
  SensorTransmitter_h skip (build [D "SENSOR_TRANSMITTER_H"])
  = Done (build [D "SENSOR_TRANSMITTER_H"])
  /\ exists s',
       SensorTransmitter_h skip (build [D "ESP32"; D "USE_SX1276"]) = Done s'
       /\ SensorTransmitter_h skip s' = Done s'.
Proof.
  split.
  - apply (proj1 (include_guard_idempotent skip (build [D "SENSOR_TRANSMITTER_H"]))).
    vm_compute; reflexivity.
  - eexists. split; [vm_compute; reflexivity|].
    apply (proj2 (include_guard_idempotent skip (build [D "ESP32"; D "USE_SX1276"]))).
    + exact (preserves_skip "SENSOR_TRANSMITTER_H").
    + vm_compute; reflexivity.
Defined.

(** X3.  [TRANSCEIVER_CHIP] and the [USE_...] macros agree at the end of
    every build that resolves: the chip named is the first family, in the
    order of lines 219-226, whose [USE_...] macro is then defined, so code
    that repeats this chain after the header reaches the same family. *)
Theorem chip_matches_use_macros s s' :
  header_body s = Done s' ->
  exists f,
    selected_family (macros s') = Some f
    /\ defined (use_macro f) (macros s') = true
    /\ macros s' !! "TRANSCEIVER_CHIP" = Some (obj [TStr (chip_label f)]).
Proof.
  intros E. pose proof (header_body_outcome s) as H.
  destruct (head (effective_families (macros s))) as [f|] eqn:Hf; [|congruence].
  destruct H as (s2 & s3 & s4 & s0 & E2 & E3 & E4 & E5 & E0).
  assert (s0 = s') as -> by congruence.
  assert (selected_family (macros s') = Some f) as Hsel.
  { by rewrite selected_family_head, (requested_at_end _ _ _ _ _ _ E2 E3 E4 E5). }
  exists f. split; [done|]. split.
  - unfold selected_family in Hsel. by apply find_some in Hsel as [_ ?].
  - apply (chip_reaches_end _ _ _ _ _ E3 E4 E5).
Qed.

Lemma chip_matches_use_macros_witness :
  exists s' f,
    header_body (build [D "ARDUINO_TTGO_LoRa32_V1"; D "ESP32"; D "USE_LR1121"]) = Done s'
    /\ selected_family (macros s') = Some f
    /\ defined (use_macro f) (macros s') = true
    /\ macros s' !! "TRANSCEIVER_CHIP" = Some (obj [TStr (chip_label f)]).
Proof.
  eexists.
  destruct (chip_matches_use_macros
              (build [D "ARDUINO_TTGO_LoRa32_V1"; D "ESP32"; D "USE_LR1121"]) _
              ltac:(vm_compute; reflexivity)) as (f & H).
  exists f. split; [vm_compute; reflexivity | exact H].
Defined.

(** X4.  The library settings of lines 54-55 hold at the end of every build
    that resolves: [MAX_SENSORS_DEFAULT] is 1 and [WIND_DATA_FLOATINGPOINT]
    is defined (empty), whatever the build had set them to. *)
Theorem library_settings_reach_end s s' :
  header_body s = Done s' ->
  macros s' !! "MAX_SENSORS_DEFAULT" = Some (obj [TNum 1])
  /\ macros s' !! "WIND_DATA_FLOATINGPOINT" = Some (obj []).
Proof.
  unfold header_body. intros (s1 & E1 & E)%seq_Done.
  assert (preserves "MAX_SENSORS_DEFAULT"
            (board ;; radio_transceiver ;; transceiver_pins ;; report)) as H1
    by structural.
  assert (preserves "WIND_DATA_FLOATINGPOINT"
            (board ;; radio_transceiver ;; transceiver_pins ;; report)) as H2
    by structural.
  rewrite (H1 _ _ E), (H2 _ _ E).
  injection E1 as <-. simpl. defs. done.
Qed.

Lemma library_settings_reach_end_witness :
  exists s',
    header_body (build [D "ESP8266"; D "USE_CC1101"]) = Done s'
    /\ macros s' !! "MAX_SENSORS_DEFAULT" = Some (obj [TNum 1])
    /\ macros s' !! "WIND_DATA_FLOATINGPOINT" = Some (obj []).
Proof.
  eexists. split; [vm_compute; reflexivity|].
  apply (library_settings_reach_end (build [D "ESP8266"; D "USE_CC1101"])).
  vm_compute; reflexivity.
Defined.

(** ** The order of the pin chain *)

Lemma pins_generic_esp8266 s :
  dedicated_pins (macros s) = false ->
  defined "ESP32" (macros s) = false ->
  defined "ESP8266" (macros s) = true ->
  transceiver_pins s = transceiver (TNum 15) (TNum 4) (TNum 5) (TNum 2) s.
Proof.
  unfold dedicated_pins, transceiver_pins, if_else, c_or. intros H1 H2 H3.
  repeat (apply orb_false_elim in H1 as [H1 ?]).
  repeat case_match; try done; congruence.
Qed.

Lemma pins_heltec s :
  defined "LORAWAN_NODE" (macros s) = false ->
  defined "FIREBEETLE_ESP32_COVER_LORA" (macros s) = false ->
  defined "ARDUINO_TTGO_LoRa32_V1" (macros s) = false ->
  defined "ARDUINO_TTGO_LoRa32_V2" (macros s) = false ->
  defined "ARDUINO_TTGO_LoRa32_v21new" (macros s) = false ->
  defined "ARDUINO_heltec_wireless_stick" (macros s)
  || defined "ARDUINO_heltec_wifi_lora_32_V2" (macros s) = true ->
  transceiver_pins s
  = transceiver (TId "SS") (TId "DIO0") (TId "DIO1") (TId "RST_LoRa") s.
Proof.
  unfold transceiver_pins, if_else, c_or. intros H1 H2 H3 H4 H5 H6.
  by rewrite H1, H2, H3, H4, H5, H6.
Qed.

(** A target is the first of the board chain: the macros of the targets
    before it are not defined. *)
Lemma board_target_first (m : gmap string macro) t :
  board_target m = Some t ->
  match t with
  | TTGO_LoRa32_V1 => True
  | TTGO_LoRa32_V2 => defined "ARDUINO_TTGO_LoRa32_V1" m = false
  | TTGO_LoRa32_v21new =>
      defined "ARDUINO_TTGO_LoRa32_V1" m = false
      /\ defined "ARDUINO_TTGO_LoRa32_V2" m = false
  | _ =>
      defined "ARDUINO_TTGO_LoRa32_V1" m = false
      /\ defined "ARDUINO_TTGO_LoRa32_V2" m = false
      /\ defined "ARDUINO_TTGO_LoRa32_v21new" m = false
      /\ (match t with
          | ADAFRUIT_FEATHER_ESP32S2 => True
          | FEATHER_ESP32 | AVR_FEATHER32U4 | ADAFRUIT_FEATHER_RP2040
          | DFROBOT_FIREBEETLE_ESP32 =>
              defined "ARDUINO_ADAFRUIT_FEATHER_ESP32S2" m = false
          | _ => True
          end)
      /\ (match t with
          | AVR_FEATHER32U4 | ADAFRUIT_FEATHER_RP2040 | DFROBOT_FIREBEETLE_ESP32 =>
              defined "ARDUINO_FEATHER_ESP32" m = false
          | _ => True
          end)
  end.
Proof.
  unfold board_target. simpl. intros H.
  repeat case_match; simplify_eq; done.
Qed.

(** The names the pin chain tests, [FIREBEETLE_ESP32_COVER_LORA] apart,
    reach it as the build set them. *)
Lemma tests_before_pins b s s2 s3 k :
  (settings ;; board) s = Done s2 ->
  define "TRANSCEIVER_CHIP" b s2 = Done s3 ->
  k ∈ ["LORAWAN_NODE"; "ARDUINO_TTGO_LoRa32_V1"; "ARDUINO_TTGO_LoRa32_V2";
       "ARDUINO_TTGO_LoRa32_v21new"; "ARDUINO_heltec_wireless_stick";
       "ARDUINO_heltec_wifi_lora_32_V2"; "ARDUINO_ADAFRUIT_FEATHER_ESP32S2";
       "ARDUINO_FEATHER_ESP32"; "ESP32"; "ESP8266"; "ARDUINO_AVR_FEATHER32U4";
       "ARDUINO_ADAFRUIT_FEATHER_RP2040"] ->
  defined k (macros s3) = defined k (macros s).
Proof.
  intros E2 E3 Hk.
  repeat (apply elem_of_cons in Hk as [->|Hk];
          [eapply defined_before_pins; [structural | discriminate | exact E2 | exact E3]|]).
  by apply elem_of_nil in Hk.
Qed.

(** Rewrite the conditions of the pin chain, seen at its start, to what
    they are in the build. *)
Ltac pin_tests E2 E3 :=
  rewrite ?(cover_lora_before_pins _ _ _ _ E2 E3);
  rewrite ?(tests_before_pins _ _ _ _ "LORAWAN_NODE" E2 E3 ltac:(compute_done)),
    ?(tests_before_pins _ _ _ _ "ARDUINO_TTGO_LoRa32_V1" E2 E3 ltac:(compute_done)),
    ?(tests_before_pins _ _ _ _ "ARDUINO_TTGO_LoRa32_V2" E2 E3 ltac:(compute_done)),
    ?(tests_before_pins _ _ _ _ "ARDUINO_TTGO_LoRa32_v21new" E2 E3 ltac:(compute_done)),
    ?(tests_before_pins _ _ _ _ "ARDUINO_heltec_wireless_stick" E2 E3 ltac:(compute_done)),
    ?(tests_before_pins _ _ _ _ "ARDUINO_heltec_wifi_lora_32_V2" E2 E3 ltac:(compute_done)),
    ?(tests_before_pins _ _ _ _ "ARDUINO_ADAFRUIT_FEATHER_ESP32S2" E2 E3 ltac:(compute_done)),
    ?(tests_before_pins _ _ _ _ "ARDUINO_FEATHER_ESP32" E2 E3 ltac:(compute_done)),
    ?(tests_before_pins _ _ _ _ "ESP32" E2 E3 ltac:(compute_done)),
    ?(tests_before_pins _ _ _ _ "ESP8266" E2 E3 ltac:(compute_done)),
    ?(tests_before_pins _ _ _ _ "ARDUINO_AVR_FEATHER32U4" E2 E3 ltac:(compute_done)),
    ?(tests_before_pins _ _ _ _ "ARDUINO_ADAFRUIT_FEATHER_RP2040" E2 E3 ltac:(compute_done)).

(** X5.  [LORAWAN_NODE] comes first in the pin chain: a build that defines
    it and has a radio family ends with the LoRaWAN_Node pins CS=14, IRQ=4,
    GPIO=16, RST=12 on every board and platform. *)
Theorem lorawan_node_pins_first s f :
  defined "LORAWAN_NODE" (macros s) = true ->
  head (effective_families (macros s)) = Some f ->
  exists s',
    header_body s = Done s'
    /\ macros s' !! "TRANSCEIVER_CHIP" = Some (obj [TStr (chip_label f)])
    /\ pins_are (macros s') (TNum 14) (TNum 4) (TNum 16) (TNum 12).
Proof.
  intros Hl Hf. pose proof (header_body_outcome s) as H. rewrite Hf in H.
  destruct H as (s2 & s3 & s4 & s' & E2 & E3 & E4 & E5 & E).
  exists s'. split; [done|]. split; [apply (chip_reaches_end _ _ _ _ _ E3 E4 E5)|].
  rewrite pins_lorawan_node in E4.
  - apply (pins_reach_end _ _ _ _ _ _ _ E4 E5).
  - pin_tests E2 E3. done.
Qed.

Lemma lorawan_node_pins_first_witness :
  exists s',
    header_body (build [D "LORAWAN_NODE"; D "ARDUINO_TTGO_LoRa32_V1"; D "ESP32"]) = Done s'
    /\ macros s' !! "TRANSCEIVER_CHIP" = Some (obj [TStr "[SX1276]"])
    /\ pins_are (macros s') (TNum 14) (TNum 4) (TNum 16) (TNum 12).
Proof.
  apply (lorawan_node_pins_first
           (build [D "LORAWAN_NODE"; D "ARDUINO_TTGO_LoRa32_V1"; D "ESP32"]) SX1276);
    vm_compute; reflexivity.
Defined.

(** X6.  The two chains agree on the targets that have a pin block of their
    own above the generic one (the three TTGO LoRa32, the Feather ESP32-S2,
    the Feather ESP32 and the FireBeetle with its Cover LoRa): a build for
    such a target, without [LORAWAN_NODE], without a
    [FIREBEETLE_ESP32_COVER_LORA] of its own and without the lower-case
    Heltec macros, resolves and ends with the pins of that block. *)
Theorem target_gets_own_pin_block s t cs irq gpio rst :
  board_target (macros s) = Some t ->
  own_pin_block t = Some (cs, irq, gpio, rst) ->
  defined "LORAWAN_NODE" (macros s) = false ->
  defined "FIREBEETLE_ESP32_COVER_LORA" (macros s) = false ->
  defined "ARDUINO_heltec_wireless_stick" (macros s) = false ->
  defined "ARDUINO_heltec_wifi_lora_32_V2" (macros s) = false ->
  exists s',
    header_body s = Done s'
    /\ pins_are (macros s') cs irq gpio rst.
Proof.
  intros Ht Hown Hl Hc Hh1 Hh2.
  destruct (effective_target_head _ _ Ht) as [f Hf].
  pose proof (header_body_outcome s) as H. rewrite Hf in H.
  destruct H as (s2 & s3 & s4 & s' & E2 & E3 & E4 & E5 & E).
  exists s'. split; [done|].
  pose proof (board_target_Some _ _ Ht) as Hm.
  pose proof (board_target_first _ _ Ht) as Hfirst.
  assert (transceiver_pins s3 = transceiver cs irq gpio rst s3) as Ep.
  { unfold transceiver_pins, if_else, c_or. pin_tests E2 E3.
    unfold firebeetle_target. rewrite Ht, Hl, Hc, Hh1, Hh2.
    destruct t; simpl in *; simplify_eq; destruct_and?;
      repeat match goal with H : defined _ _ = _ |- _ => rewrite H end;
      simpl; done. }
  rewrite Ep in E4. apply (pins_reach_end _ _ _ _ _ _ _ E4 E5).
Qed.

Lemma target_gets_own_pin_block_witness :
  exists s',
    header_body (build [D "ARDUINO_FEATHER_ESP32"; D "ESP32"]) = Done s'
    /\ pins_are (macros s') (TNum 14) (TNum 32) (TNum 33) (TNum 27).
Proof.
  apply (target_gets_own_pin_block
           (build [D "ARDUINO_FEATHER_ESP32"; D "ESP32"]) FEATHER_ESP32);
    vm_compute; reflexivity.
Defined.

(** X7.  The generic ESP8266 pins: a build with [ESP8266], without [ESP32]
    and without a dedicated pin block ends, when it has a radio family, with
    CS=15, IRQ=4, GPIO=5, RST=2. *)
Theorem generic_esp8266_pins s f :
  defined "ESP8266" (macros s) = true ->
  defined "ESP32" (macros s) = false ->
  dedicated_pins (macros s) = false ->
  firebeetle_target (macros s) = false ->
  head (effective_families (macros s)) = Some f ->
  exists s',
    header_body s = Done s'
    /\ macros s' !! "TRANSCEIVER_CHIP" = Some (obj [TStr (chip_label f)])
    /\ pins_are (macros s') (TNum 15) (TNum 4) (TNum 5) (TNum 2).
Proof.
  intros H82 H32 Hd Hfb Hf. pose proof (header_body_outcome s) as H. rewrite Hf in H.
  destruct H as (s2 & s3 & s4 & s' & E2 & E3 & E4 & E5 & E).
  exists s'. split; [done|]. split; [apply (chip_reaches_end _ _ _ _ _ E3 E4 E5)|].
  rewrite pins_generic_esp8266 in E4.
  - apply (pins_reach_end _ _ _ _ _ _ _ E4 E5).
  - rewrite (dedicated_before_pins _ _ _ _ E2 E3). by rewrite Hd, Hfb.
  - pin_tests E2 E3. done.
  - pin_tests E2 E3. done.
Qed.

Lemma generic_esp8266_pins_witness :
  exists s',
    header_body (build [D "ESP8266"; D "USE_CC1101"]) = Done s'
    /\ macros s' !! "TRANSCEIVER_CHIP" = Some (obj [TStr "[CC1101]"])
    /\ pins_are (macros s') (TNum 15) (TNum 4) (TNum 5) (TNum 2).
Proof.
  apply (generic_esp8266_pins (build [D "ESP8266"; D "USE_CC1101"]) CC1101);
    vm_compute; reflexivity.
Defined.

(** X8.  The Heltec pin block is reached through the lower-case macros
    only: a build that defines [ARDUINO_heltec_wireless_stick] or
    [ARDUINO_heltec_wifi_lora_32_V2], none of the macros the pin chain tests
    before them, and has a radio family ends with CS=SS, IRQ=DIO0,
    GPIO=DIO1, RST=RST_LoRa. *)
Theorem heltec_lower_case_pins s f :
  defined "ARDUINO_heltec_wireless_stick" (macros s)
  || defined "ARDUINO_heltec_wifi_lora_32_V2" (macros s) = true ->
  defined "LORAWAN_NODE" (macros s) = false ->
  defined "FIREBEETLE_ESP32_COVER_LORA" (macros s) = false ->
  firebeetle_target (macros s) = false ->
  defined "ARDUINO_TTGO_LoRa32_V1" (macros s) = false ->
  defined "ARDUINO_TTGO_LoRa32_V2" (macros s) = false ->
  defined "ARDUINO_TTGO_LoRa32_v21new" (macros s) = false ->
  head (effective_families (macros s)) = Some f ->
  exists s',
    header_body s = Done s'
    /\ macros s' !! "TRANSCEIVER_CHIP" = Some (obj [TStr (chip_label f)])
    /\ pins_are (macros s') (TId "SS") (TId "DIO0") (TId "DIO1") (TId "RST_LoRa").
Proof.
  intros Hh Hl Hc Hfb H1 H2 H3 Hf.
  pose proof (header_body_outcome s) as H. rewrite Hf in H.
  destruct H as (s2 & s3 & s4 & s' & E2 & E3 & E4 & E5 & E).
  exists s'. split; [done|]. split; [apply (chip_reaches_end _ _ _ _ _ E3 E4 E5)|].
  rewrite pins_heltec in E4.
  - apply (pins_reach_end _ _ _ _ _ _ _ E4 E5).
  - pin_tests E2 E3. done.
  - pin_tests E2 E3. by rewrite Hc, Hfb.
  - pin_tests E2 E3. done.
  - pin_tests E2 E3. done.
  - pin_tests E2 E3. done.
  - pin_tests E2 E3. done.
Qed.

Lemma heltec_lower_case_pins_witness :
  exists s',
    header_body
      (build [D "ARDUINO_heltec_wifi_lora_32_V2"; D "ESP32"; D "USE_SX1276"]) = Done s'
    /\ macros s' !! "TRANSCEIVER_CHIP" = Some (obj [TStr "[SX1276]"])
    /\ pins_are (macros s') (TId "SS") (TId "DIO0") (TId "DIO1") (TId "RST_LoRa").
Proof.
  apply (heltec_lower_case_pins
           (build [D "ARDUINO_heltec_wifi_lora_32_V2"; D "ESP32"; D "USE_SX1276"]) SX1276);
    vm_compute; reflexivity.
Defined.

(** ** Diagnostics *)

Lemma appends_define P x b : appends P (define x b).
Proof. intros s s' [= <-]. exists []. simpl. by rewrite app_nil_r. Qed.

Lemma appends_message (P : list token -> Prop) ts :
  P ts -> appends P (pragma_message ts).
Proof. intros H s s' [= <-]. exists [ts]. split; [done|]. by constructor. Qed.

Lemma appends_skip P : appends P skip.
Proof. intros s s' [= <-]. exists []. by rewrite app_nil_r. Qed.

Lemma appends_error P msg : appends P (error msg).
Proof. by intros s s' ?. Qed.

Lemma appends_seq P d1 d2 : appends P d1 -> appends P d2 -> appends P (d1 ;; d2).
Proof.
  intros H1 H2 s s' (s1 & E1 & E2)%seq_Done.
  destruct (H1 _ _ E1) as (l1 & M1 & F1). destruct (H2 _ _ E2) as (l2 & M2 & F2).
  exists (l1 ++ l2)%list. split; [by rewrite M2, M1, app_assoc | by apply Forall_app].
Qed.

Lemma appends_if P c d1 d2 :
  appends P d1 -> appends P d2 -> appends P (IF c THEN d1 ELSE d2).
Proof. intros H1 H2 s s'. unfold if_else. destruct (c (macros s)); auto. Qed.

Lemma appends_ext P (d d' : directive) :
  (forall s, d s = d' s) -> appends P d' -> appends P d.
Proof. intros H H' s s'. rewrite H. apply H'. Qed.

(** Line 197 defines [FIREBEETLE_ESP32_COVER_LORA] right before line 199
    tests it, so the FireBeetle branch always takes its first
    alternative. *)
Lemma firebeetle_cover_lora s :
  firebeetle s
  = (define "FIREBEETLE_ESP32_COVER_LORA" (obj []) ;;
     pragma_message [TStr "FIREBEETLE_ESP32_COVER_LORA defined; assuming this is a FireBeetle ESP32 with FireBeetle Cover LoRa"] ;;
     define "USE_SX1276" (obj []) ;;
     pragma_message [TStr "Required wiring: D2 to RESET, D3 to DIO0, D4 to CS, D5 to DIO1"]) s.
Proof.
  unfold firebeetle, seq, if_else, define. simpl. by rewrite defined_insert_eq.
Qed.

(** Solve [appends P d] along the structure of [d]; [side] proves [P] of
    each message. *)
Ltac diagnostics side :=
  repeat first
    [ match goal with
      | |- appends _ firebeetle => apply (appends_ext _ _ _ firebeetle_cover_lora)
      end
    | apply appends_seq | apply appends_if | apply appends_define
    | apply appends_skip | apply appends_error
    | apply appends_message; side ].

Lemma header_appends (P : list token -> Prop) :
  (forall ts, ts ≠ lorawan_node_message -> ts ≠ select_manually_message -> P ts) ->
  appends P (settings ;; board ;; radio_transceiver ;; transceiver_pins).
Proof.
  intros HP.
  unfold settings, board, receiver_pins, radio_transceiver, transceiver_pins, transceiver.
  diagnostics ltac:(apply HP; discriminate).
Qed.

Lemma header_body_split s s' :
  header_body s = Done s' <->
  exists s4, (settings ;; board ;; radio_transceiver ;; transceiver_pins) s = Done s4
             /\ report s4 = Done s'.
Proof.
  unfold header_body, seq.
  destruct (settings s) as [s1|]; [|by split; [|intros (? & ? & ?)]].
  destruct (board s1) as [s2|]; [|by split; [|intros (? & ? & ?)]].
  destruct (radio_transceiver s2) as [s3|]; [|by split; [|intros (? & ? & ?)]].
  destruct (transceiver_pins s3) as [s4|]; [|by split; [|intros (? & ? & ?)]].
  split; [eauto|]. by intros (? & [= <-] & ?).
Qed.

(** X9.  The header keeps the diagnostics emitted before it and ends every
    build that resolves with its two reports, the chip and the pin
    configuration, in this order. *)
Theorem reports_end_the_log s s' :
  header_body s = Done s' ->
  exists l, messages s' = (messages s ++ l ++ [chip_report; pin_report])%list.
Proof.
  intros (s4 & E4 & E5)%header_body_split.
  destruct (header_appends (fun _ => True) ltac:(done) _ _ E4) as (l & Hl & _).
  exists l. injection E5 as <-. simpl. rewrite Hl.
  by rewrite <- !app_assoc.
Qed.

Lemma reports_end_the_log_witness :
  exists s' l,
    header_body (build [D "ARDUINO_FEATHER_ESP32"; D "ESP32"]) = Done s'
    /\ messages s' = ([] ++ l ++ [chip_report; pin_report])%list.
Proof.
  eexists.
  destruct (reports_end_the_log (build [D "ARDUINO_FEATHER_ESP32"; D "ESP32"]) _
              ltac:(vm_compute; reflexivity)) as [l Hl].
  exists l. split; [vm_compute; reflexivity | exact Hl].
Defined.

(** X10.  The second and third alternative of the FireBeetle branch (lines
    204-211) are dead: whatever the build defines, the header never emits
    the [LORAWAN_NODE] diagnostic of line 205 nor the request of line 209 to
    select one of the two boards. *)
Theorem firebeetle_alternatives_dead s s' :
  header_body s = Done s' ->
  exists l,
    messages s' = (messages s ++ l)%list
    /\ (lorawan_node_message ∉ l)
    /\ (select_manually_message ∉ l).
Proof.
  intros (s4 & E4 & E5)%header_body_split.
  destruct (header_appends
              (fun ts => ts ≠ lorawan_node_message /\ ts ≠ select_manually_message)
              ltac:(done) _ _ E4) as (l & Hl & HF).
  exists (l ++ [chip_report; pin_report])%list.
  injection E5 as <-. simpl. rewrite Hl. split; [by rewrite <- !app_assoc|].
  rewrite Forall_forall in HF.
  split; intros [H|H]%elem_of_app.
  - by destruct (HF _ H).
  - repeat (apply elem_of_cons in H as [H|H]; [discriminate|]). by apply elem_of_nil in H.
  - by destruct (HF _ H).
  - repeat (apply elem_of_cons in H as [H|H]; [discriminate|]). by apply elem_of_nil in H.
Qed.

Lemma firebeetle_alternatives_dead_witness :
  exists s' l,
    header_body
      (build [D "ARDUINO_DFROBOT_FIREBEETLE_ESP32"; D "ESP32"; D "LORAWAN_NODE"]) = Done s'
    /\ messages s' = ([] ++ l)%list
    /\ (lorawan_node_message ∉ l)
    /\ (select_manually_message ∉ l).
Proof.
  eexists.
  destruct (firebeetle_alternatives_dead
              (build [D "ARDUINO_DFROBOT_FIREBEETLE_ESP32"; D "ESP32"; D "LORAWAN_NODE"]) _
              ltac:(vm_compute; reflexivity)) as [l Hl].
  exists l. split; [vm_compute; reflexivity | exact Hl].
Defined.

(** ** What the outcome depends on *)

Lemma same_defined_target (m1 m2 : gmap string macro) :
  same_defined m1 m2 -> board_target m1 = board_target m2.
Proof.
  intros H. apply board_target_ext. intros t. apply (H (target_macro t)).
  destruct t; compute_done.
Qed.

Lemma same_defined_effective (m1 m2 : gmap string macro) :
  same_defined m1 m2 -> effective_families m1 = effective_families m2.
Proof.
  intros H. unfold effective_families, implied_by_target.
  rewrite (same_defined_target _ _ H). simpl.
  by rewrite !(fun k Hk => H k Hk) by compute_done.
Qed.

(** When no branch of the pin chain matches, the pin macros end as the
    build had them. *)
Lemma pins_untouched b s s2 s3 s' p :
  (settings ;; board) s = Done s2 ->
  define "TRANSCEIVER_CHIP" b s2 = Done s3 ->
  report s3 = Done s' ->
  p ∈ pin_macros ->
  macros s' !! p = macros s !! p.
Proof.
  intros E2 [= <-] E5 Hp.
  assert (forall k, preserves k report -> preserves k (settings ;; board) ->
            k ≠ "TRANSCEIVER_CHIP" -> macros s' !! k = macros s !! k) as Hk.
  { intros k H1 H2 H3. rewrite (H1 _ _ E5). simpl.
    rewrite lookup_insert_ne by done. by apply H2. }
  unfold pin_macros in Hp.
  repeat (apply elem_of_cons in Hp as [->|Hp];
          [apply Hk; [structural..|discriminate]|]).
  by apply elem_of_nil in Hp.
Qed.

(** X11.  The header looks only at whether the names of [header_tests] are
    defined, never at what they are defined as, and at no other name: two
    builds in which the same of these names are defined either both stop at
    line 228, or both resolve, with the same [TRANSCEIVER_CHIP] and with
    the same four pins (or, where no branch of the pin chain matches, each
    with the pin macros it came with). *)
Theorem outcome_depends_on_definedness s1 s2 :
  same_defined (macros s1) (macros s2) ->
  match header_body s1, header_body s2 with
  | Failed m1, Failed m2 => m1 = m2
  | Done a, Done b =>
      macros a !! "TRANSCEIVER_CHIP" = macros b !! "TRANSCEIVER_CHIP"
      /\ ((exists cs irq gpio rst,
             pins_are (macros a) cs irq gpio rst
             /\ pins_are (macros b) cs irq gpio rst)
          \/ (forall p, p ∈ pin_macros ->
                macros a !! p = macros s1 !! p /\ macros b !! p = macros s2 !! p))
  | _, _ => False
  end.
Proof.
  intros Hs.
  pose proof (header_body_outcome s1) as H1.
  pose proof (header_body_outcome s2) as H2.
  rewrite <- (same_defined_effective _ _ Hs) in H2.
  destruct (head (effective_families (macros s1))) as [f|].
  2: { by rewrite H1, H2. }
  destruct H1 as (a2 & a3 & a4 & a & A2 & A3 & A4 & A5 & ->).
  destruct H2 as (b2 & b3 & b4 & b & B2 & B3 & B4 & B5 & ->).
  split.
  { by rewrite (chip_reaches_end _ _ _ _ _ A3 A4 A5),
               (chip_reaches_end _ _ _ _ _ B3 B4 B5). }
  unfold transceiver_pins, if_else, c_or in A4, B4.
  revert A4 B4. pin_tests A2 A3. pin_tests B2 B3.
  unfold firebeetle_target. rewrite <- (same_defined_target _ _ Hs).
  rewrite <- !(fun k Hk => Hs k Hk) by compute_done.
  intros A4 B4.
  repeat case_match;
    try (left; do 4 eexists; split;
         [apply (pins_reach_end _ _ _ _ _ _ _ A4 A5)
         |apply (pins_reach_end _ _ _ _ _ _ _ B4 B5)]).
  all: right; intros p Hp; injection A4 as <-; injection B4 as <-; split;
    eapply pins_untouched; eauto.
Qed.

Lemma outcome_depends_on_definedness_witness :
  match header_body (build [D "ESP32"; D "USE_SX1262"]),
        header_body (build [("ESP32", obj []); ("USE_SX1262", obj [TNum 0]);
                            D "ARDUINO_ESP32_DEV"]) with
  | Failed m1, Failed m2 => m1 = m2
  | Done a, Done b =>
      macros a !! "TRANSCEIVER_CHIP" = macros b !! "TRANSCEIVER_CHIP"
      /\ ((exists cs irq gpio rst,
             pins_are (macros a) cs irq gpio rst
             /\ pins_are (macros b) cs irq gpio rst)
          \/ (forall p, p ∈ pin_macros ->
                macros a !! p = macros (build [D "ESP32"; D "USE_SX1262"]) !! p
                /\ macros b !! p
                   = macros (build [("ESP32", obj []); ("USE_SX1262", obj [TNum 0]);
                                    D "ARDUINO_ESP32_DEV"]) !! p))
  | _, _ => False
  end.
Proof.
  apply (outcome_depends_on_definedness
           (build [D "ESP32"; D "USE_SX1262"])
           (build [("ESP32", obj []); ("USE_SX1262", obj [TNum 0]);
                   D "ARDUINO_ESP32_DEV"])).
  intros k Hk. unfold header_tests in Hk. simpl in Hk.
  repeat (apply elem_of_cons in Hk as [->|Hk]; [vm_compute; reflexivity|]).
  by apply elem_of_nil in Hk.
Defined.

(** ** Radio family: who wins, and the one way to fail *)

(** X12.  [USE_CC1101] given by the build wins on every board, and on a
    target that brings SX1276 a request for SX1262 or LR1121 is overridden:
    without [USE_CC1101] the chip is the SX1276 whatever else the build
    asks for. *)
Theorem family_priority s :
  (defined "USE_CC1101" (macros s) = true ->
   exists s',
     header_body s = Done s'
     /\ macros s' !! "TRANSCEIVER_CHIP" = Some (obj [TStr "[CC1101]"]))
  /\ (forall t,
        board_target (macros s) = Some t ->
        implied_family t = SX1276 ->
        defined "USE_CC1101" (macros s) = false ->
        exists s',
          header_body s = Done s'
          /\ macros s' !! "TRANSCEIVER_CHIP" = Some (obj [TStr "[SX1276]"])).
Proof.
  pose proof (header_body_outcome s) as H. split.
  - intros Hc.
    assert (head (effective_families (macros s)) = Some CC1101) as Hf.
    { unfold effective_families. simpl. by rewrite Hc. }
    rewrite Hf in H. destruct H as (s2 & s3 & s4 & s' & E2 & E3 & E4 & E5 & E).
    exists s'. split; [done|]. apply (chip_reaches_end _ _ _ _ _ E3 E4 E5).
  - intros t Ht Hi Hc.
    assert (head (effective_families (macros s)) = Some SX1276) as Hf.
    { unfold effective_families, implied_by_target. rewrite Ht, Hi. simpl.
      by rewrite Hc, orb_true_r. }
    rewrite Hf in H. destruct H as (s2 & s3 & s4 & s' & E2 & E3 & E4 & E5 & E).
    exists s'. split; [done|]. apply (chip_reaches_end _ _ _ _ _ E3 E4 E5).
Qed.

Lemma family_priority_witness :
  (exists s',
     header_body (build [D "ARDUINO_LILYGO_T3S3_LR1121"; D "ESP32"; D "USE_CC1101"])
     = Done s'
     /\ macros s' !! "TRANSCEIVER_CHIP" = Some (obj [TStr "[CC1101]"]))
  /\ (exists s',
        header_body (build [D "ARDUINO_TTGO_LoRa32_V2"; D "ESP32"; D "USE_LR1121"])
        = Done s'
        /\ macros s' !! "TRANSCEIVER_CHIP" = Some (obj [TStr "[SX1276]"])).
Proof.
  split.
  - apply (proj1 (family_priority
                    (build [D "ARDUINO_LILYGO_T3S3_LR1121"; D "ESP32"; D "USE_CC1101"]))).
    vm_compute; reflexivity.
  - apply (proj2 (family_priority
                    (build [D "ARDUINO_TTGO_LoRa32_V2"; D "ESP32"; D "USE_LR1121"]))
             TTGO_LoRa32_V2); vm_compute; reflexivity.
Defined.

(** X13.  The header has one way to stop a build.  If it fails, the message
    is the one of line 228, the build defines none of the four [USE_...]
    macros and none of the macros the board chain tests; nothing else in
    the build can make it fail. *)
Theorem only_failure s msg :
  header_body s = Failed msg ->
  msg = no_family_message
  /\ requested_families (macros s) = []
  /\ board_target (macros s) = None.
Proof.
  intros E. pose proof (header_body_outcome s) as H.
  destruct (head (effective_families (macros s))) as [f|] eqn:Hf.
  { destruct H as (? & ? & ? & ? & _ & _ & _ & _ & ?). congruence. }
  split; [congruence|].
  destruct (board_target (macros s)) as [t|] eqn:Ht.
  { destruct (effective_target_head _ _ Ht) as [f Hf']. congruence. }
  split; [|done].
  rewrite <- (effective_without_target _ Ht).
  by destruct (effective_families (macros s)).
Qed.

Lemma only_failure_witness :
  header_body (build [D "ARDUINO_ESP32_DEV"; D "ESP32"; D "LORAWAN_NODE"])
  = Failed no_family_message
  /\ requested_families
       (macros (build [D "ARDUINO_ESP32_DEV"; D "ESP32"; D "LORAWAN_NODE"])) = []
  /\ board_target
       (macros (build [D "ARDUINO_ESP32_DEV"; D "ESP32"; D "LORAWAN_NODE"])) = None.
Proof.
  split; [vm_compute; reflexivity|].
  apply (only_failure (build [D "ARDUINO_ESP32_DEV"; D "ESP32"; D "LORAWAN_NODE"])
           no_family_message).
  vm_compute; reflexivity.
Defined.
